(** * tools/llm_api.py: provider dispatch, usage accounting and the CLI

    A shallow embedding of [create_llm_client], [encode_image_file],
    [query_llm] and [main] of [tools/llm_api.py].

    The module talks to collaborators that live outside the file: the
    process environment, the file system, the three provider SDKs and the
    [token_tracker] module.  Their answers are collected in a record [Env]
    of oracles; every call the code makes to one of them is appended to an
    event log, which is the state threaded through the embedding.  Python
    exceptions are a second kind of result, so the code runs in a small
    state-and-exception monad [M]. *)

From Stdlib Require Import String Ascii List Bool ZArith QArith Lia.
Import ListNotations.
Local Open Scope string_scope.
Local Open Scope list_scope.

(** ** Python values used by the module *)

(** Exceptions derived from [Exception]; [str(e)] is the carried message.
    [APIError] stands for anything a provider SDK, the file system or the
    token tracker raises. *)
Inductive Exception : Type :=
| ValueError (msg : string)
| AttributeError (msg : string)
| IndexError (msg : string)
| APIError (msg : string).

Definition str (e : Exception) : string :=
  match e with
  | ValueError m | AttributeError m | IndexError m | APIError m => m
  end.

(** A variable holding [None] or a [str]. *)
Definition OptStr : Type := option string.

(** Truth value of an [Optional[str]]: [None] and the empty string are
    false. *)
Definition truthy (s : OptStr) : bool :=
  match s with
  | None => false
  | Some s => negb (s =? "")
  end.

(** [str.lower] on the ASCII range.  Only the first character of the result
    is ever inspected, and no code point outside [A-Z] lower-cases to a
    string that begins with an ASCII letter [o]. *)
Definition lower_ascii (c : ascii) : ascii :=
  let n := nat_of_ascii c in
  if andb (Nat.leb 65 n) (Nat.leb n 90) then ascii_of_nat (n + 32) else c.

Fixpoint lower (s : string) : string :=
  match s with
  | EmptyString => EmptyString
  | String c s' => String (lower_ascii c) (lower s')
  end.

Definition startswith (s p : string) : bool := String.prefix p s.

(** [x in xs] for a list of strings. *)
Definition str_in (x : string) (xs : list string) : bool :=
  existsb (String.eqb x) xs.
Arguments str_in : simpl never.

(** ** Clients, requests and responses *)

(** What [create_llm_client] constructs. *)
Inductive Client : Type :=
| OpenAI (api_key : string) (base_url : OptStr)
| AzureOpenAI (api_key api_version azure_endpoint : string)
| Anthropic (api_key : string)
| genai.

(** One entry of a message's ["content"] list. *)
Inductive ContentPart : Type :=
| TextPart (text : string)
| ImageUrlPart (url : string)
| ImagePart (media_type data : string).

Record Message : Type := mkMessage {
  role : string;
  content : list ContentPart
}.

(** Values stored in the [kwargs] dict of the OpenAI-style branch. *)
Inductive KwVal : Type :=
| KwModel (m : OptStr)
| KwMessages (ms : list Message)
| KwFloat (q : Q)
| KwType (t : string)
| KwStr (s : string).

(** A dict with string keys, in insertion order. *)
Definition Dict : Type := list (string * KwVal).

Definition dict_del (k : string) (d : Dict) : Dict :=
  filter (fun kv => negb (fst kv =? k)) d.

Definition dict_set (k : string) (v : KwVal) (d : Dict) : Dict :=
  if existsb (fun kv => fst kv =? k) d
  then map (fun kv => if fst kv =? k then (k, v) else kv) d
  else d ++ [(k, v)].

Fixpoint dict_get (k : string) (d : Dict) : option KwVal :=
  match d with
  | [] => None
  | (k', v) :: d' => if k' =? k then Some v else dict_get k d'
  end.

(** [response.usage] of a chat completion.  The usage object need not
    have an attribute [reasoning_tokens]: reading it gives its value,
    [None] or a count, or raises. *)
Record CompletionUsage : Type := mkCompletionUsage {
  prompt_tokens : Z;
  completion_tokens : Z;
  total_tokens : Z;
  reasoning_tokens : Exception + option Z
}.

(** A chat completion: [choices[i].message.content], which is [None] for
    a message without text, and [usage]. *)
Record ChatCompletion : Type := mkChatCompletion {
  choices : list OptStr;
  usage : CompletionUsage
}.

(** An Anthropic message: [content[i].text] and [usage]. *)
Record AnthropicMessage : Type := mkAnthropicMessage {
  content_text : list string;
  input_tokens : Z;
  output_tokens : Z
}.

(** A Gemini response; reading [response.text] may itself raise. *)
Record GenerateContentResponse : Type := mkGenerateContentResponse {
  text : Exception + string
}.

(** ** token_tracker's value types, as [query_llm] constructs them *)

Record TokenUsage : Type := mkTokenUsage {
  tu_prompt_tokens : Z;
  tu_completion_tokens : Z;
  tu_total_tokens : Z;
  tu_reasoning_tokens : option Z
}.

Record APIResponse : Type := mkAPIResponse {
  ar_content : OptStr;
  ar_token_usage : TokenUsage;
  ar_cost : Q;
  ar_thinking_time : Q;
  ar_provider : string;
  ar_model : OptStr
}.

(** ** The outside world *)

Inductive CostFormula : Type := OpenAICost | ClaudeCost.

(** Calls that leave the module, most recent first in the log. *)
Inductive Event : Type :=
| EvConfigure (api_key : string)
| EvReadImage (path : string)
| EvChatCreate (c : Client) (kwargs : Dict)
| EvMessagesCreate (c : Client) (model : OptStr) (max_tokens : Z)
                   (messages : list Message)
| EvGenerateContent (c : Client) (model : OptStr) (prompt : string)
| EvCost (f : CostFormula) (prompt completion : Z) (model : OptStr)
| EvTrack (r : APIResponse)
| EvStderr (line : string)
| EvStdout (line : string).

Definition World : Type := list Event.

(** Answers of the collaborators.  Floats are rationals here; no property
    below depends on rounding. *)
Record Env : Type := mkEnv {
  getenv : string -> OptStr;
  guess_type : string -> OptStr;
  read_b64 : string -> Exception + string;
  time_start : Q;
  time_end : Q;
  chat_completions_create : Client -> Dict -> Exception + ChatCompletion;
  messages_create :
    Client -> OptStr -> Z -> list Message -> Exception + AnthropicMessage;
  GenerativeModel : Client -> OptStr -> option Exception;
  generate_content :
    Client -> OptStr -> string -> Exception + GenerateContentResponse;
  calculate_openai_cost : Z -> Z -> OptStr -> Exception + Q;
  calculate_claude_cost : Z -> Z -> OptStr -> Exception + Q;
  track_request : APIResponse -> option Exception
}.

(** ** The monad: an event log and exceptions *)

Inductive Outcome (A : Type) : Type :=
| Ok (a : A)
| Raised (e : Exception).
Arguments Ok {A} a.
Arguments Raised {A} e.

Definition M (A : Type) : Type := World -> Outcome A * World.

Definition ret {A} (a : A) : M A := fun w => (Ok a, w).

Definition raise {A} (e : Exception) : M A := fun w => (Raised e, w).

Definition bind {A B} (m : M A) (k : A -> M B) : M B :=
  fun w =>
    match m w with
    | (Ok a, w') => k a w'
    | (Raised e, w') => (Raised e, w')
    end.

Notation "x <- m ;; k" := (bind m (fun x => k))
  (at level 61, m at next level, right associativity).
Notation "m ;;; k" := (bind m (fun _ => k))
  (at level 61, right associativity).

Definition emit (e : Event) : M unit := fun w => (Ok tt, e :: w).

(** Result of a call that returns a value or raises. *)
Definition call {A} (r : Exception + A) : M A :=
  match r with
  | inl e => raise e
  | inr a => ret a
  end.

(** Result of a call made for its effect only. *)
Definition call_ (r : option Exception) : M unit :=
  match r with
  | Some e => raise e
  | None => ret tt
  end.

(** [try: body except Exception as e: handler e] *)
Definition try_except {A} (body : M A) (handler : Exception -> M A) : M A :=
  fun w =>
    match body w with
    | (Ok a, w') => (Ok a, w')
    | (Raised e, w') => handler e w'
    end.

(** [xs[0]] *)
Definition index0 {A} (xs : list A) : M A :=
  match xs with
  | x :: _ => ret x
  | [] => raise (IndexError "list index out of range")
  end.

(** ** Views of the log *)

(** Records handed to [track_request], most recent first. *)
Fixpoint tracked (w : World) : list APIResponse :=
  match w with
  | [] => []
  | EvTrack r :: w' => r :: tracked w'
  | _ :: w' => tracked w'
  end.

Definition is_network (e : Event) : bool :=
  match e with
  | EvChatCreate _ _ | EvMessagesCreate _ _ _ _ | EvGenerateContent _ _ _ => true
  | _ => false
  end.

(** Requests sent to a provider, most recent first. *)
Definition network (w : World) : list Event := filter is_network w.

Definition is_cost (e : Event) : bool :=
  match e with
  | EvCost _ _ _ _ => true
  | _ => false
  end.

(** Cost calculations asked of the tracker, most recent first. *)
Definition costs (w : World) : list Event := filter is_cost w.

Fixpoint stdout (w : World) : list string :=
  match w with
  | [] => []
  | EvStdout l :: w' => l :: stdout w'
  | _ :: w' => stdout w'
  end.

(** ** encode_image_file *)

Definition encode_image_file (E : Env) (image_path : string)
  : M (string * string) :=
  let mime_type := guess_type E image_path in
  let mime_type := if negb (truthy mime_type) then Some "image/png"
                   else mime_type in
  emit (EvReadImage image_path) ;;;
  encoded_string <- call (read_b64 E image_path) ;;
  ret (encoded_string,
       match mime_type with Some m => m | None => "image/png" end).

(** ** create_llm_client *)

Definition create_llm_client (E : Env) (provider : string) : M Client :=
  if provider =? "openai" then
    let api_key := getenv E "OPENAI_API_KEY" in
    if negb (truthy api_key) then
      raise (ValueError "OPENAI_API_KEY not found in environment variables")
    else
      ret (OpenAI (match api_key with Some k => k | None => "" end) None)
  else if provider =? "azure" then
    let api_key := getenv E "AZURE_OPENAI_API_KEY" in
    if negb (truthy api_key) then
      raise (ValueError
               "AZURE_OPENAI_API_KEY not found in environment variables")
    else
      ret (AzureOpenAI (match api_key with Some k => k | None => "" end)
             "2024-08-01-preview" "https://msopenai.openai.azure.com")
  else if provider =? "deepseek" then
    let api_key := getenv E "DEEPSEEK_API_KEY" in
    if negb (truthy api_key) then
      raise (ValueError "DEEPSEEK_API_KEY not found in environment variables")
    else
      ret (OpenAI (match api_key with Some k => k | None => "" end)
             (Some "https://api.deepseek.com/v1"))
  else if provider =? "anthropic" then
    let api_key := getenv E "ANTHROPIC_API_KEY" in
    if negb (truthy api_key) then
      raise (ValueError "ANTHROPIC_API_KEY not found in environment variables")
    else
      ret (Anthropic (match api_key with Some k => k | None => "" end))
  else if provider =? "gemini" then
    let api_key := getenv E "GOOGLE_API_KEY" in
    if negb (truthy api_key) then
      raise (ValueError "GOOGLE_API_KEY not found in environment variables")
    else
      emit (EvConfigure (match api_key with Some k => k | None => "" end)) ;;;
      ret genai
  else if provider =? "local" then
    ret (OpenAI "not-needed" (Some "http://192.168.180.137:8006/v1"))
  else
    raise (ValueError ("Unsupported provider: " ++ provider)).

(** ** query_llm *)

Definition print_stderr (line : string) : M unit := emit (EvStderr line).
Definition print (line : string) : M unit := emit (EvStdout line).

Definition openai_style : list string :=
  ["openai"; "local"; "deepseek"; "azure"].

(** Lines 148-160: the model used when the caller passes [None]. *)
Definition default_model (E : Env) (provider : string) (model : OptStr)
  : OptStr :=
  match model with
  | Some _ => model
  | None =>
      if provider =? "openai" then Some "gpt-4o"
      else if provider =? "azure" then
        Some (match getenv E "AZURE_OPENAI_MODEL_DEPLOYMENT" with
              | Some v => v
              | None => "gpt-4o-ms"
              end)
      else if provider =? "deepseek" then Some "deepseek-chat"
      else if provider =? "anthropic" then Some "claude-3-5-sonnet-20241022"
      else if provider =? "gemini" then Some "gemini-pro"
      else if provider =? "local" then Some "Qwen/Qwen2.5-32B-Instruct-AWQ"
      else None
  end.

(** [messages[0]["content"].append(part)] *)
Definition append_content0 (part : ContentPart) (messages : list Message)
  : list Message :=
  match messages with
  | m :: ms => mkMessage (role m) (content m ++ [part]) :: ms
  | [] => []
  end.

(** [messages[0]["content"] = parts] *)
Definition set_content0 (parts : list ContentPart) (messages : list Message)
  : list Message :=
  match messages with
  | m :: ms => mkMessage (role m) parts :: ms
  | [] => []
  end.

(** [model == s] for a model that may be [None]. *)
Definition model_eqb (model : OptStr) (s : string) : bool :=
  match model with
  | Some m => m =? s
  | None => false
  end.

(** Line 202: [response.usage.reasoning_tokens if
    model.lower().startswith("o") else None]; the attribute is read for
    the models that start with [o] only. *)
Definition read_reasoning (m : string) (u : CompletionUsage)
  : Exception + option Z :=
  if startswith (lower m) "o" then reasoning_tokens u else inr None.

(** Lines 198-203: the usage record of the OpenAI-style branch. *)
Definition openai_token_usage (model : OptStr) (response : ChatCompletion)
  : M TokenUsage :=
  match model with
  | None => raise (AttributeError
                     "'NoneType' object has no attribute 'lower'")
  | Some m =>
      reasoning <- call (read_reasoning m (usage response)) ;;
      ret {| tu_prompt_tokens := prompt_tokens (usage response);
             tu_completion_tokens := completion_tokens (usage response);
             tu_total_tokens := total_tokens (usage response);
             tu_reasoning_tokens := reasoning |}
  end.

(** Lines 254-258: the usage record of the Anthropic branch. *)
Definition anthropic_token_usage (response : AnthropicMessage) : TokenUsage :=
  {| tu_prompt_tokens := input_tokens response;
     tu_completion_tokens := output_tokens response;
     tu_total_tokens := (input_tokens response + output_tokens response)%Z;
     tu_reasoning_tokens := None |}.

(** Lines 165-192: the request of the OpenAI-style branch. *)
Definition openai_kwargs (E : Env) (prompt : string) (model : OptStr)
    (provider : string) (image_path : OptStr) : M Dict :=
  let messages := [mkMessage "user" []] in
  let messages := append_content0 (TextPart prompt) messages in
  messages <-
    (match image_path with
     | Some path =>
         if truthy image_path then
           if provider =? "openai" then
             em <- encode_image_file E path ;;
             let (encoded_image, mime_type) := em in
             ret (set_content0
                    [TextPart prompt;
                     ImageUrlPart ("data:" ++ mime_type ++ ";base64,"
                                     ++ encoded_image)]
                    messages)
           else ret messages
         else ret messages
     | None => ret messages
     end) ;;
  let kwargs := [("model", KwModel model);
                 ("messages", KwMessages messages);
                 ("temperature", KwFloat (7 # 10))] in
  let kwargs :=
    if model_eqb model "o1" then
      dict_del "temperature"
        (dict_set "reasoning_effort" (KwStr "low")
           (dict_set "response_format" (KwType "text") kwargs))
    else kwargs in
  ret kwargs.

(** Lines 195-223: accounting and result of the OpenAI-style branch. *)
Definition openai_record (E : Env) (provider : string) (model : OptStr)
    (start_time : Q) (response : ChatCompletion) : M OptStr :=
  let thinking_time := (time_end E - start_time)%Q in
  token_usage <- openai_token_usage model response ;;
  emit (EvCost OpenAICost (tu_prompt_tokens token_usage)
          (tu_completion_tokens token_usage) model) ;;;
  cost <- call (calculate_openai_cost E (tu_prompt_tokens token_usage)
                  (tu_completion_tokens token_usage) model) ;;
  content0 <- index0 (choices response) ;;
  let api_response :=
    {| ar_content := content0;
       ar_token_usage := token_usage;
       ar_cost := cost;
       ar_thinking_time := thinking_time;
       ar_provider := provider;
       ar_model := model |} in
  emit (EvTrack api_response) ;;;
  call_ (track_request E api_response) ;;;
  result <- index0 (choices response) ;;
  ret result.

(** Lines 226-244: the messages of the Anthropic branch. *)
Definition anthropic_messages (E : Env) (prompt : string)
    (image_path : OptStr) : M (list Message) :=
  let messages := [mkMessage "user" []] in
  let messages := append_content0 (TextPart prompt) messages in
  match image_path with
  | Some path =>
      if truthy image_path then
        em <- encode_image_file E path ;;
        let (encoded_image, mime_type) := em in
        ret (append_content0 (ImagePart mime_type encoded_image) messages)
      else ret messages
  | None => ret messages
  end.

(** Lines 251-278: accounting and result of the Anthropic branch. *)
Definition anthropic_record (E : Env) (provider : string) (model : OptStr)
    (start_time : Q) (response : AnthropicMessage) : M OptStr :=
  let thinking_time := (time_end E - start_time)%Q in
  let token_usage := anthropic_token_usage response in
  emit (EvCost ClaudeCost (tu_prompt_tokens token_usage)
          (tu_completion_tokens token_usage) model) ;;;
  cost <- call (calculate_claude_cost E (tu_prompt_tokens token_usage)
                  (tu_completion_tokens token_usage) model) ;;
  content0 <- index0 (content_text response) ;;
  let api_response :=
    {| ar_content := Some content0;
       ar_token_usage := token_usage;
       ar_cost := cost;
       ar_thinking_time := thinking_time;
       ar_provider := provider;
       ar_model := model |} in
  emit (EvTrack api_response) ;;;
  call_ (track_request E api_response) ;;;
  result <- index0 (content_text response) ;;
  ret (Some result).

(** Lines 146-283: the body of the [try] block. *)
Definition query_llm_try (E : Env) (prompt : string) (client : Client)
    (model : OptStr) (provider : string) (image_path : OptStr) : M OptStr :=
  let model := default_model E provider model in
  let start_time := time_start E in
  if str_in provider openai_style then
    kwargs <- openai_kwargs E prompt model provider image_path ;;
    emit (EvChatCreate client kwargs) ;;;
    response <- call (chat_completions_create E client kwargs) ;;
    openai_record E provider model start_time response
  else if provider =? "anthropic" then
    messages <- anthropic_messages E prompt image_path ;;
    emit (EvMessagesCreate client model 1000 messages) ;;;
    response <- call (messages_create E client model 1000 messages) ;;
    anthropic_record E provider model start_time response
  else if provider =? "gemini" then
    call_ (GenerativeModel E client model) ;;;
    emit (EvGenerateContent client model prompt) ;;;
    response <- call (generate_content E client model prompt) ;;
    result <- call (text response) ;;
    ret (Some result)
  else
    ret None.

(** Lines 285-287: the handler of the [try] block. *)
Definition query_llm_except (e : Exception) : M OptStr :=
  print_stderr ("Error querying LLM: " ++ str e) ;;;
  ret None.

(** Lines 143-144: the client the request goes through. *)
Definition get_client (E : Env) (client : option Client) (provider : string)
  : M Client :=
  match client with
  | None => create_llm_client E provider
  | Some c => ret c
  end.

Definition query_llm (E : Env) (prompt : string) (client : option Client)
    (model : OptStr) (provider : string) (image_path : OptStr) : M OptStr :=
  client <- get_client E client provider ;;
  try_except (query_llm_try E prompt client model provider image_path)
             query_llm_except.

(** ** main *)

(** The command line as written: the value given to each of the four
    options, [None] for an option that was left out.  Command lines that
    argparse refuses for their form (an unknown option, an option without
    its value) and [-h] are outside this model. *)
Record Argv : Type := mkArgv {
  opt_prompt : OptStr;
  opt_provider : OptStr;
  opt_model : OptStr;
  opt_image : OptStr
}.

(** The namespace returned by [parser.parse_args()]. *)
Record Args : Type := mkArgs {
  arg_prompt : string;
  arg_provider : string;
  arg_model : OptStr;
  arg_image : OptStr
}.

(** Line 292: [choices] of [--provider]. *)
Definition provider_choices : list string :=
  ["openai"; "anthropic"; "gemini"; "local"; "deepseek"; "azure"].

(** Line 292: [default='openai']. *)
Definition chosen_provider (argv : Argv) : string :=
  match opt_provider argv with
  | Some p => p
  | None => "openai"
  end.

(** Lines 290-295: [--prompt] is required and [--provider] must be one of
    the choices; otherwise argparse prints its usage message (the
    library's own text, not logged here) and ends the process with
    [SystemExit(2)], the value on the left. *)
Definition parse_args (argv : Argv) : Z + Args :=
  match opt_prompt argv with
  | None => inl 2%Z
  | Some prompt =>
      if str_in (chosen_provider argv) provider_choices then
        inr {| arg_prompt := prompt;
               arg_provider := chosen_provider argv;
               arg_model := opt_model argv;
               arg_image := opt_image argv |}
      else inl 2%Z
  end.

(** Lines 297-307: the model the CLI asks for. *)
Definition cli_model (E : Env) (args : Args) : OptStr :=
  if negb (truthy (arg_model args)) then
    if arg_provider args =? "openai" then Some "gpt-4o"
    else if arg_provider args =? "deepseek" then Some "deepseek-chat"
    else if arg_provider args =? "anthropic" then
      Some "claude-3-5-sonnet-20241022"
    else if arg_provider args =? "gemini" then Some "gemini-2.0-flash-exp"
    else if arg_provider args =? "azure" then
      Some (match getenv E "AZURE_OPENAI_MODEL_DEPLOYMENT" with
            | Some v => v
            | None => "gpt-4o-ms"
            end)
    else arg_model args
  else arg_model args.

(** Lines 297-314: [main] once the arguments are parsed. *)
Definition main_parsed (E : Env) (args : Args) : M unit :=
  let model := cli_model E args in
  client <- create_llm_client E (arg_provider args) ;;
  response <- query_llm E (arg_prompt args) (Some client) model
                (arg_provider args) (arg_image args) ;;
  if truthy response then
    print (match response with Some r => r | None => "None" end)
  else
    print "Failed to get response from LLM".

(** How a run of [main] ends: it returns, an exception leaves it
    uncaught, or argparse ends the process. *)
Inductive Exit : Type :=
| Returned
| Uncaught (e : Exception)
| SystemExit (code : Z).

Definition main (E : Env) (argv : Argv) (w : World) : Exit * World :=
  match parse_args argv with
  | inl code => (SystemExit code, w)
  | inr args =>
      match main_parsed E args w with
      | (Ok _, w') => (Returned, w')
      | (Raised e, w') => (Uncaught e, w')
      end
  end.

(** Exit status of the process once [main] has run: falling off the end
    gives 0, an uncaught exception 1, [SystemExit(code)] its code. *)
Definition exit_status (x : Exit) : Z :=
  match x with
  | Returned => 0%Z
  | Uncaught _ => 1%Z
  | SystemExit code => code
  end.

(** ** Sample environments *)

Definition no_keys : string -> OptStr := fun _ => None.

Definition all_keys : string -> OptStr := fun _ => Some "sk-test".

Definition chat_hello : ChatCompletion :=
  {| choices := [Some "hello"];
     usage := {| prompt_tokens := 12; completion_tokens := 100;
                 total_tokens := 112;
                 reasoning_tokens := inr (Some 40%Z) |} |}.

Definition no_attribute : Exception :=
  AttributeError
    "'CompletionUsage' object has no attribute 'reasoning_tokens'".

(** The same answer from a usage object without [reasoning_tokens]. *)
Definition chat_plain : ChatCompletion :=
  {| choices := [Some "hello"];
     usage := {| prompt_tokens := 12; completion_tokens := 100;
                 total_tokens := 112;
                 reasoning_tokens := inl no_attribute |} |}.

(** An answer whose message has no text. *)
Definition chat_silent : ChatCompletion :=
  {| choices := [None];
     usage := {| prompt_tokens := 12; completion_tokens := 0;
                 total_tokens := 12;
                 reasoning_tokens := inl no_attribute |} |}.

Definition claude_hello : AnthropicMessage :=
  {| content_text := ["hello"]; input_tokens := 12; output_tokens := 30 |}.

(** An environment whose collaborators give the same answer to every call. *)
Definition const_env (keys : string -> OptStr)
    (chat : Exception + ChatCompletion)
    (msgs : Exception + AnthropicMessage)
    (gem : Exception + GenerateContentResponse)
    (cost : Exception + Q) (trk : option Exception) : Env :=
  {| getenv := keys;
     guess_type := fun _ => Some "image/jpeg";
     read_b64 := fun _ => inr "aGk=";
     time_start := 10;
     time_end := 12;
     chat_completions_create := fun _ _ => chat;
     messages_create := fun _ _ _ _ => msgs;
     GenerativeModel := fun _ _ => None;
     generate_content := fun _ _ _ => gem;
     calculate_openai_cost := fun _ _ _ => cost;
     calculate_claude_cost := fun _ _ _ => cost;
     track_request := fun _ => trk |}.

(** Every collaborator answers. *)
Definition happy_env : Env :=
  const_env all_keys (inr chat_hello) (inr claude_hello)
    (inr {| text := inr "hello" |}) (inr (1 # 100)) None.

(** The provider answers, the cost calculation raises. *)
Definition cost_fails_env : Env :=
  const_env all_keys (inr chat_hello) (inr claude_hello)
    (inr {| text := inr "hello" |}) (inl (APIError "no pricing")) None.

(** The provider answers, [track_request] raises. *)
Definition track_fails_env : Env :=
  const_env all_keys (inr chat_hello) (inr claude_hello)
    (inr {| text := inr "hello" |}) (inr (1 # 100))
    (Some (APIError "ledger closed")).

(** The provider raises. *)
Definition api_fails_env : Env :=
  const_env all_keys (inl (APIError "timeout")) (inl (APIError "timeout"))
    (inl (APIError "timeout")) (inr (1 # 100)) None.

(** The provider answers with a message that has no text. *)
Definition silent_env : Env :=
  const_env all_keys (inr chat_silent) (inr claude_hello)
    (inr {| text := inr "hello" |}) (inr (1 # 100)) None.

(** The provider answers from a usage object without [reasoning_tokens]. *)
Definition plain_env : Env :=
  const_env all_keys (inr chat_plain) (inr claude_hello)
    (inr {| text := inr "hello" |}) (inr (1 # 100)) None.

(** Gemini answers with an empty text. *)
Definition empty_text_env : Env :=
  const_env all_keys (inr chat_hello) (inr claude_hello)
    (inr {| text := inr "" |}) (inr (1 # 100)) None.

(** ** Vocabulary of the properties *)

Definition supported : list string :=
  ["openai"; "local"; "deepseek"; "azure"; "anthropic"; "gemini"].

(** The environment variable each provider reads its key from. *)
Definition credentials : list (string * string) :=
  [("openai", "OPENAI_API_KEY"); ("azure", "AZURE_OPENAI_API_KEY");
   ("deepseek", "DEEPSEEK_API_KEY"); ("anthropic", "ANTHROPIC_API_KEY");
   ("gemini", "GOOGLE_API_KEY")].

(** A step is quiet when it leaves the three views of the log alone. *)
Definition quiet {A} (m : M A) : Prop :=
  forall w, tracked (snd (m w)) = tracked w /\
            costs (snd (m w)) = costs w /\
            network (snd (m w)) = network w.

(** [Accounted E provider model r]: [r] is the record [query_llm] builds
    from a provider answer under [E], for the given provider and the model
    in force. *)
Inductive Accounted (E : Env) (provider : string) (model : OptStr)
  : APIResponse -> Prop :=
| AccountedOpenAI (c : Client) (kwargs : Dict) (response : ChatCompletion)
    (m : string) (reasoning : option Z) (text : OptStr) (cost : Q) :
    str_in provider openai_style = true ->
    model = Some m ->
    chat_completions_create E c kwargs = inr response ->
    read_reasoning m (usage response) = inr reasoning ->
    calculate_openai_cost E (prompt_tokens (usage response))
      (completion_tokens (usage response)) model = inr cost ->
    Accounted E provider model
      {| ar_content := text;
         ar_token_usage :=
           {| tu_prompt_tokens := prompt_tokens (usage response);
              tu_completion_tokens := completion_tokens (usage response);
              tu_total_tokens := total_tokens (usage response);
              tu_reasoning_tokens := reasoning |};
         ar_cost := cost;
         ar_thinking_time := time_end E - time_start E;
         ar_provider := provider;
         ar_model := model |}
| AccountedAnthropic (c : Client) (messages : list Message)
    (response : AnthropicMessage) (text : string) (cost : Q) :
    str_in provider openai_style = false ->
    provider = "anthropic" ->
    messages_create E c model 1000 messages = inr response ->
    calculate_claude_cost E (input_tokens response) (output_tokens response)
      model = inr cost ->
    Accounted E provider model
      {| ar_content := Some text;
         ar_token_usage :=
           {| tu_prompt_tokens := input_tokens response;
              tu_completion_tokens := output_tokens response;
              tu_total_tokens := input_tokens response + output_tokens response;
              tu_reasoning_tokens := None |};
         ar_cost := cost;
         ar_thinking_time := time_end E - time_start E;
         ar_provider := provider;
         ar_model := model |}.

(** One call hands at most one record to the tracker. *)
Definition ledger_step (E : Env) (provider : string) (model : OptStr)
    (w w' : World) : Prop :=
  tracked w' = tracked w \/
  exists r, tracked w' = r :: tracked w /\ Accounted E provider model r.

Inductive ApiAnswer : Type :=
| ChatAnswer (response : ChatCompletion)
| MessagesAnswer (response : AnthropicMessage)
| GeminiAnswer (response : GenerateContentResponse).

Definition answer {A} (f : A -> ApiAnswer) (r : Exception + A)
  : Exception + ApiAnswer :=
  match r with
  | inl e => inl e
  | inr a => inr (f a)
  end.

(** [api_call E c prompt model provider image_path w w1 a]: started in [w]
    with the client resolved to [c], the [try] block reaches its provider
    call, the log is [w1] once the request is out, and the provider's
    answer, or the exception it raises, is [a].  [model] is the model in
    force, after the defaults. *)
Inductive api_call (E : Env) (c : Client) (prompt : string) (model : OptStr)
    (provider : string) (image_path : OptStr) (w : World)
  : World -> Exception + ApiAnswer -> Prop :=
| CallChat (kwargs : Dict) (w1 : World) :
    str_in provider openai_style = true ->
    openai_kwargs E prompt model provider image_path w = (Ok kwargs, w1) ->
    api_call E c prompt model provider image_path w
      (EvChatCreate c kwargs :: w1)
      (answer ChatAnswer (chat_completions_create E c kwargs))
| CallMessages (messages : list Message) (w1 : World) :
    str_in provider openai_style = false ->
    provider = "anthropic" ->
    anthropic_messages E prompt image_path w = (Ok messages, w1) ->
    api_call E c prompt model provider image_path w
      (EvMessagesCreate c model 1000 messages :: w1)
      (answer MessagesAnswer (messages_create E c model 1000 messages))
| CallGemini :
    provider = "gemini" ->
    GenerativeModel E c model = None ->
    api_call E c prompt model provider image_path w
      (EvGenerateContent c model prompt :: w)
      (answer GeminiAnswer (generate_content E c model prompt)).

(** [accounting_raises E provider model a e]: after the provider answered
    [a] and the usage record was built, the cost calculation raises [e],
    or it succeeds and [track_request] raises [e]. *)
Inductive accounting_raises (E : Env) (provider : string) (model : OptStr)
  : ApiAnswer -> Exception -> Prop :=
| CostRaisesOpenAI (response : ChatCompletion) (m : string)
    (reasoning : option Z) (e : Exception) :
    model = Some m ->
    read_reasoning m (usage response) = inr reasoning ->
    calculate_openai_cost E (prompt_tokens (usage response))
      (completion_tokens (usage response)) model = inl e ->
    accounting_raises E provider model (ChatAnswer response) e
| TrackRaisesOpenAI (response : ChatCompletion) (m : string)
    (reasoning : option Z) (text : OptStr) (rest : list OptStr) (cost : Q)
    (e : Exception) :
    model = Some m ->
    read_reasoning m (usage response) = inr reasoning ->
    calculate_openai_cost E (prompt_tokens (usage response))
      (completion_tokens (usage response)) model = inr cost ->
    choices response = text :: rest ->
    track_request E
      {| ar_content := text;
         ar_token_usage :=
           {| tu_prompt_tokens := prompt_tokens (usage response);
              tu_completion_tokens := completion_tokens (usage response);
              tu_total_tokens := total_tokens (usage response);
              tu_reasoning_tokens := reasoning |};
         ar_cost := cost;
         ar_thinking_time := time_end E - time_start E;
         ar_provider := provider;
         ar_model := model |} = Some e ->
    accounting_raises E provider model (ChatAnswer response) e
| CostRaisesClaude (response : AnthropicMessage) (e : Exception) :
    calculate_claude_cost E (input_tokens response) (output_tokens response)
      model = inl e ->
    accounting_raises E provider model (MessagesAnswer response) e
| TrackRaisesClaude (response : AnthropicMessage) (text : string)
    (rest : list string) (cost : Q) (e : Exception) :
    calculate_claude_cost E (input_tokens response) (output_tokens response)
      model = inr cost ->
    content_text response = text :: rest ->
    track_request E
      {| ar_content := Some text;
         ar_token_usage := anthropic_token_usage response;
         ar_cost := cost;
         ar_thinking_time := time_end E - time_start E;
         ar_provider := provider;
         ar_model := model |} = Some e ->
    accounting_raises E provider model (MessagesAnswer response) e.

Definition is_image (p : ContentPart) : bool :=
  match p with
  | TextPart _ => false
  | ImageUrlPart _ | ImagePart _ _ => true
  end.

Definition has_image (messages : list Message) : bool :=
  existsb (fun m => existsb is_image (content m)) messages.

(** Does a request carry image content? *)
Definition carries_image (e : Event) : bool :=
  match e with
  | EvChatCreate _ kwargs =>
      match dict_get "messages" kwargs with
      | Some (KwMessages messages) => has_image messages
      | _ => false
      end
  | EvMessagesCreate _ _ _ messages => has_image messages
  | _ => false
  end.

Definition image_blind : list string :=
  ["azure"; "deepseek"; "local"; "gemini"].

(** The cost stored in a record is what the calculator of its provider
    family returns for the record's prompt count, completion count and
    model. *)
Definition billed (E : Env) (r : APIResponse) : Prop :=
  (if str_in (ar_provider r) openai_style
   then calculate_openai_cost E
   else calculate_claude_cost E)
    (tu_prompt_tokens (ar_token_usage r))
    (tu_completion_tokens (ar_token_usage r))
    (ar_model r) = inr (ar_cost r).

(** [response] with [rt] as the value of [usage.reasoning_tokens], where
    the usage object has the attribute. *)
Definition with_reasoning (rt : option Z) (response : ChatCompletion)
  : ChatCompletion :=
  {| choices := choices response;
     usage := {| prompt_tokens := prompt_tokens (usage response);
                 completion_tokens := completion_tokens (usage response);
                 total_tokens := total_tokens (usage response);
                 reasoning_tokens :=
                   match reasoning_tokens (usage response) with
                   | inl e => inl e
                   | inr _ => inr rt
                   end |} |}.

(** The environment [E], except that every chat completion that reports
    reasoning tokens reports [rt]. *)
Definition report_reasoning (rt : option Z) (E : Env) : Env :=
  {| getenv := getenv E;
     guess_type := guess_type E;
     read_b64 := read_b64 E;
     time_start := time_start E;
     time_end := time_end E;
     chat_completions_create := fun c kwargs =>
       match chat_completions_create E c kwargs with
       | inl e => inl e
       | inr response => inr (with_reasoning rt response)
       end;
     messages_create := messages_create E;
     GenerativeModel := GenerativeModel E;
     generate_content := generate_content E;
     calculate_openai_cost := calculate_openai_cost E;
     calculate_claude_cost := calculate_claude_cost E;
     track_request := track_request E |}.

(** Modelled from the spec: the cost formula of its section 4.1,
    [(prompt_tokens / unit_size) * prompt_price_per_unit +
     (completion_tokens / unit_size) * completion_price_per_unit];
    the calculators of [token_tracker] are not part of the sources. *)
Definition spec_cost (prompt_price completion_price : Q) (unit_size : Z)
    (prompt completion : Z) : Q :=
  (inject_Z prompt / inject_Z unit_size) * prompt_price +
  (inject_Z completion / inject_Z unit_size) * completion_price.

(** [happy_env] with the OpenAI-style calculator following [spec_cost]. *)
Definition priced_env (prompt_price completion_price : Q) (unit_size : Z)
  : Env :=
  {| getenv := all_keys;
     guess_type := fun _ => Some "image/jpeg";
     read_b64 := fun _ => inr "aGk=";
     time_start := 10;
     time_end := 12;
     chat_completions_create := fun _ _ => inr chat_hello;
     messages_create := fun _ _ _ _ => inr claude_hello;
     GenerativeModel := fun _ _ => None;
     generate_content := fun _ _ _ => inr {| text := inr "hello" |};
     calculate_openai_cost := fun p c _ =>
       inr (spec_cost prompt_price completion_price unit_size p c);
     calculate_claude_cost := fun p c _ =>
       inr (spec_cost prompt_price completion_price unit_size p c);
     track_request := fun _ => None |}.

(** ** load_environment *)

(** What [load_environment] asks of the file system, of [dotenv] and of
    the interpreter.  [absolute name] is the text of
    [(Path('.') / name).absolute()], [open_lines name] the lines that
    iterating over the opened file yields, line ends included, and
    [repr] the text Python prints for a list of strings. *)
Record Files : Type := mkFiles {
  absolute : string -> string;
  exists_file : string -> bool;
  load_dotenv : string -> option Exception;
  open_lines : string -> Exception + list string;
  environ_keys : list string;
  repr : list string -> string
}.

(** What the function does to the outside, most recent first. *)
Inductive LoadEvent : Type :=
| LdStderr (line : string)
| LdDotenv (path : string)
| LdOpen (path : string).

(** [c in line] *)
Fixpoint contains_char (c : ascii) (line : string) : bool :=
  match line with
  | EmptyString => false
  | String a rest => if Ascii.eqb a c then true else contains_char c rest
  end.

(** [line.split('=')[0]]: the text before the first [=]. *)
Fixpoint before_eq (line : string) : string :=
  match line with
  | EmptyString => EmptyString
  | String a rest =>
      if Ascii.eqb a "=" then EmptyString else String a (before_eq rest)
  end.

(** [str.isspace] on the ASCII range: tab to carriage return, the four
    separators 28 to 31, and the space. *)
Definition is_space (c : ascii) : bool :=
  let n := nat_of_ascii c in
  (Nat.leb 9 n && Nat.leb n 13) || (Nat.leb 28 n && Nat.leb n 32).

Fixpoint lstrip (s : string) : string :=
  match s with
  | EmptyString => EmptyString
  | String a rest => if is_space a then lstrip rest else s
  end.

Fixpoint rstrip (s : string) : string :=
  match s with
  | EmptyString => EmptyString
  | String a rest =>
      match rstrip rest with
      | EmptyString => if is_space a then EmptyString else String a EmptyString
      | kept => String a kept
      end
  end.

(** [s.strip()] for ASCII text. *)
Definition strip (s : string) : string := rstrip (lstrip s).

(** Line 42: the keys reported for one environment file. *)
Definition env_keys (lines : list string) : list string :=
  map (fun line => strip (before_eq line))
    (filter (fun line => contains_char "=" line && negb (startswith line "#"))
       lines).

Definition env_files : list string := [".env.local"; ".env"; ".env.example"].

(** Lines 33-43: one turn of the loop; returns the new [env_loaded]. *)
Definition load_one (F : Files) (env_file : string) (env_loaded : bool)
    (log : list LoadEvent) : Outcome bool * list LoadEvent :=
  let log := LdStderr ("Checking " ++ absolute F env_file) :: log in
  if exists_file F env_file then
    let log :=
      LdStderr ("Found " ++ env_file ++ ", loading variables...") :: log in
    let log := LdDotenv env_file :: log in
    match load_dotenv F env_file with
    | Some e => (Raised e, log)
    | None =>
        let log :=
          LdStderr ("Loaded environment variables from " ++ env_file)
          :: log in
        let log := LdOpen env_file :: log in
        match open_lines F env_file with
        | inl e => (Raised e, log)
        | inr lines =>
            (Ok true,
             LdStderr ("Keys loaded from " ++ env_file ++ ": "
                         ++ repr F (env_keys lines)) :: log)
        end
    end
  else (Ok env_loaded, log).

(** Lines 32-43: the loop over the candidate files. *)
Fixpoint load_each (F : Files) (files : list string) (env_loaded : bool)
    (log : list LoadEvent) : Outcome bool * list LoadEvent :=
  match files with
  | [] => (Ok env_loaded, log)
  | env_file :: rest =>
      match load_one F env_file env_loaded log with
      | (Ok loaded, log') => load_each F rest loaded log'
      | (Raised e, log') => (Raised e, log')
      end
  end.

Definition no_env_warning : string :=
  "Warning: No .env files found. Using system environment variables only.".

Definition load_environment (F : Files) (log : list LoadEvent)
  : Outcome unit * list LoadEvent :=
  let log :=
    LdStderr ("Current working directory: " ++ absolute F ".") :: log in
  let log :=
    LdStderr ("Looking for environment files: " ++ repr F env_files)
    :: log in
  match load_each F env_files false log with
  | (Ok env_loaded, log) =>
      if negb env_loaded then
        (Ok tt,
         LdStderr ("Available system environment variables: "
                     ++ repr F (environ_keys F))
         :: LdStderr no_env_warning :: log)
      else (Ok tt, log)
  | (Raised e, log) => (Raised e, log)
  end.

(** Files handed to [load_dotenv], most recent first. *)
Fixpoint dotenv_calls (log : list LoadEvent) : list string :=
  match log with
  | [] => []
  | LdDotenv path :: log' => path :: dotenv_calls log'
  | _ :: log' => dotenv_calls log'
  end.

(** Was the warning about missing files printed? *)
Definition warned (log : list LoadEvent) : bool :=
  existsb (fun e => match e with
                    | LdStderr line => line =? no_env_warning
                    | _ => false
                    end) log.

Definition first_char (s : string) : option ascii :=
  match s with
  | EmptyString => None
  | String a _ => Some a
  end.

Fixpoint last_char (s : string) : option ascii :=
  match s with
  | EmptyString => None
  | String a EmptyString => Some a
  | String _ rest => last_char rest
  end.

(** A file system with [.env] only, holding a comment, a key with spaces
    around it, a line with no [=], and a value that contains [=]. *)
Definition sample_files : Files :=
  {| absolute := fun name => ("/work/" ++ name)%string;
     exists_file := fun name => name =? ".env";
     load_dotenv := fun _ => None;
     open_lines := fun _ =>
       inr ["# secrets = here"; " OPENAI_API_KEY = sk-1=2"; "no key here";
            "DEBUG=1"];
     environ_keys := ["PATH"];
     repr := fun keys => String.concat "," keys |}.

(** ** More vocabulary *)

(** Lines printed on standard error, most recent first. *)
Fixpoint stderr_lines (w : World) : list string :=
  match w with
  | [] => []
  | EvStderr l :: w' => l :: stderr_lines w'
  | _ :: w' => stderr_lines w'
  end.

(** The key a constructed client carries. *)
Definition client_key (c : Client) : OptStr :=
  match c with
  | OpenAI k _ | AzureOpenAI k _ _ | Anthropic k => Some k
  | genai => None
  end.

(** The text of a request made of one user message that starts with a
    text part. *)
Definition first_text (messages : list Message) : OptStr :=
  match messages with
  | [m] =>
      match content m with
      | TextPart t :: _ => if role m =? "user" then Some t else None
      | _ => None
      end
  | _ => None
  end.

(** The prompt a request carries. *)
Definition request_prompt (e : Event) : OptStr :=
  match e with
  | EvChatCreate _ kwargs =>
      match dict_get "messages" kwargs with
      | Some (KwMessages messages) => first_text messages
      | _ => None
      end
  | EvMessagesCreate _ _ _ messages => first_text messages
  | EvGenerateContent _ _ prompt => Some prompt
  | _ => None
  end.

(** The model a request names. *)
Definition request_model (e : Event) : option OptStr :=
  match e with
  | EvChatCreate _ kwargs =>
      match dict_get "model" kwargs with
      | Some (KwModel m) => Some m
      | _ => None
      end
  | EvMessagesCreate _ m _ _ => Some m
  | EvGenerateContent _ m _ => Some m
  | _ => None
  end.

(** The [try] block from the provider's answer on: what
    [query_llm_try] does once the request is out, the log is [w] and the
    provider has answered [a] or raised. *)
Definition after_call (E : Env) (provider : string) (model : OptStr)
    (a : Exception + ApiAnswer) (w : World) : Outcome OptStr * World :=
  match a with
  | inl e => (Raised e, w)
  | inr (ChatAnswer response) =>
      openai_record E provider model (time_start E) response w
  | inr (MessagesAnswer response) =>
      anthropic_record E provider model (time_start E) response w
  | inr (GeminiAnswer response) =>
      match text response with
      | inl e => (Raised e, w)
      | inr t => (Ok (Some t), w)
      end
  end.

(** The [except] clause applied to the outcome of the [try] block. *)
Definition handled (r : Outcome OptStr * World) : Outcome OptStr * World :=
  match r with
  | (Ok a, w) => (Ok a, w)
  | (Raised e, w) => query_llm_except e w
  end.

(** The usage record of lines 198-203, once the three counts are read
    and the reasoning tokens are [reasoning]. *)
Definition usage_of (response : ChatCompletion) (reasoning : option Z)
  : TokenUsage :=
  {| tu_prompt_tokens := prompt_tokens (usage response);
     tu_completion_tokens := completion_tokens (usage response);
     tu_total_tokens := total_tokens (usage response);
     tu_reasoning_tokens := reasoning |}.

(** ** Running the embedding on the samples *)

Example run_openai_o1 :
  query_llm happy_env "hi" None (Some "o1") "openai" None [] =
  (Ok (Some "hello"),
   [EvTrack {| ar_content := Some "hello";
               ar_token_usage := mkTokenUsage 12 100 112 (Some 40%Z);
               ar_cost := 1 # 100;
               ar_thinking_time := 12 - 10;
               ar_provider := "openai";
               ar_model := Some "o1" |};
    EvCost OpenAICost 12 100 (Some "o1");
    EvChatCreate (OpenAI "sk-test" None)
      [("model", KwModel (Some "o1"));
       ("messages", KwMessages [mkMessage "user" [TextPart "hi"]]);
       ("response_format", KwType "text");
       ("reasoning_effort", KwStr "low")]]).
Proof. reflexivity. Qed.

Example run_openai_default_image :
  query_llm happy_env "hi" None None "openai" (Some "cat.jpg") [] =
  (Ok (Some "hello"),
   [EvTrack {| ar_content := Some "hello";
               ar_token_usage := mkTokenUsage 12 100 112 None;
               ar_cost := 1 # 100;
               ar_thinking_time := 12 - 10;
               ar_provider := "openai";
               ar_model := Some "gpt-4o" |};
    EvCost OpenAICost 12 100 (Some "gpt-4o");
    EvChatCreate (OpenAI "sk-test" None)
      [("model", KwModel (Some "gpt-4o"));
       ("messages",
        KwMessages [mkMessage "user"
                      [TextPart "hi";
                       ImageUrlPart "data:image/jpeg;base64,aGk="]]);
       ("temperature", KwFloat (7 # 10))];
    EvReadImage "cat.jpg"]).
Proof. reflexivity. Qed.

Example run_anthropic :
  query_llm happy_env "hi" None None "anthropic" None [] =
  (Ok (Some "hello"),
   [EvTrack {| ar_content := Some "hello";
               ar_token_usage := mkTokenUsage 12 30 42 None;
               ar_cost := 1 # 100;
               ar_thinking_time := 12 - 10;
               ar_provider := "anthropic";
               ar_model := Some "claude-3-5-sonnet-20241022" |};
    EvCost ClaudeCost 12 30 (Some "claude-3-5-sonnet-20241022");
    EvMessagesCreate (Anthropic "sk-test")
      (Some "claude-3-5-sonnet-20241022") 1000
      [mkMessage "user" [TextPart "hi"]]]).
Proof. reflexivity. Qed.

Example run_gemini :
  query_llm happy_env "hi" None None "gemini" (Some "cat.jpg") [] =
  (Ok (Some "hello"),
   [EvGenerateContent genai (Some "gemini-pro") "hi"; EvConfigure "sk-test"]).
Proof. reflexivity. Qed.

Example run_missing_key :
  query_llm (const_env no_keys (inr chat_hello) (inr claude_hello)
               (inr {| text := inr "hello" |}) (inr (1 # 100)) None)
    "hi" None None "openai" None [] =
  (Raised (ValueError "OPENAI_API_KEY not found in environment variables"),
   []).
Proof. reflexivity. Qed.

(** ** Basic facts about the monad and the providers *)

Ltac run :=
  cbv beta iota zeta
    delta [bind ret raise emit call call_ try_except index0 print
           print_stderr fst snd] in *.

Lemma str_in_openai_style (p : string) :
  str_in p openai_style =
  (p =? "openai") || ((p =? "local") || ((p =? "deepseek") || (p =? "azure"))).
Proof.
  unfold str_in, openai_style. simpl. now rewrite !orb_false_r.
Qed.

Lemma str_in_supported (p : string) :
  str_in p supported = false ->
  (p =? "openai") = false /\ (p =? "local") = false /\
  (p =? "deepseek") = false /\ (p =? "azure") = false /\
  (p =? "anthropic") = false /\ (p =? "gemini") = false.
Proof.
  unfold str_in, supported. simpl. rewrite !orb_false_iff. tauto.
Qed.

Lemma default_model_openai_style (E : Env) (p : string) (model : OptStr) :
  str_in p openai_style = true ->
  exists m, default_model E p model = Some m.
Proof.
  rewrite str_in_openai_style. intros H.
  destruct model as [m|]; simpl; [now exists m|].
  destruct (p =? "openai"); [eauto|].
  destruct (p =? "azure"); [eauto|].
  destruct (p =? "deepseek"); [eauto|].
  destruct (p =? "anthropic"); [eauto|].
  destruct (p =? "gemini"); [eauto|].
  destruct (p =? "local"); [eauto|]. discriminate.
Qed.

Lemma create_llm_client_network (E : Env) (p : string) (w : World) :
  network (snd (create_llm_client E p w)) = network w.
Proof.
  unfold create_llm_client.
  repeat match goal with
    | |- context [if ?b then _ else _] => destruct b
    end; reflexivity.
Qed.

Lemma create_llm_client_tracked (E : Env) (p : string) (w : World) :
  tracked (snd (create_llm_client E p w)) = tracked w /\
  costs (snd (create_llm_client E p w)) = costs w.
Proof.
  unfold create_llm_client.
  repeat match goal with
    | |- context [if ?b then _ else _] => destruct b
    end; split; reflexivity.
Qed.

(** ** Configuration errors *)

(** C7: [create_llm_client] raises [ValueError] when the key variable of
    the selected provider is absent and when the provider is not one of the
    six supported names; ["local"] needs no key; and in no case does the
    function send a request to a provider. *)
Theorem create_llm_client_fails_fast (E : Env) (provider : string)
    (w : World) :
  (forall key,
      In (provider, key) credentials ->
      getenv E key = None ->
      create_llm_client E provider w =
      (Raised (ValueError (key ++ " not found in environment variables")),
       w)) /\
  (str_in provider supported = false ->
   create_llm_client E provider w =
   (Raised (ValueError ("Unsupported provider: " ++ provider)), w)) /\
  (provider = "local" ->
   create_llm_client E provider w =
   (Ok (OpenAI "not-needed" (Some "http://192.168.180.137:8006/v1")), w)) /\
  network (snd (create_llm_client E provider w)) = network w.
Proof.
  repeat split.
  - intros key Hin Hnone. simpl in Hin.
    repeat (destruct Hin as [Hin|Hin];
            [injection Hin as <- <-; unfold create_llm_client; simpl;
             rewrite Hnone; reflexivity|]).
    contradiction.
  - intros H. apply str_in_supported in H.
    destruct H as (H1 & H2 & H3 & H4 & H5 & H6).
    unfold create_llm_client. now rewrite H1, H4, H3, H5, H6, H2.
  - intros ->. reflexivity.
  - apply create_llm_client_network.
Qed.

Lemma create_llm_client_fails_fast_witness :
  create_llm_client (const_env no_keys (inr chat_hello) (inr claude_hello)
                       (inr {| text := inr "hello" |}) (inr (1 # 100)) None)
    "anthropic" [] =
  (Raised (ValueError "ANTHROPIC_API_KEY not found in environment variables"),
   []) /\
  create_llm_client happy_env "mistral" [] =
  (Raised (ValueError "Unsupported provider: mistral"), []) /\
  create_llm_client
    (const_env no_keys (inr chat_hello) (inr claude_hello)
       (inr {| text := inr "hello" |}) (inr (1 # 100)) None) "local" [] =
  (Ok (OpenAI "not-needed" (Some "http://192.168.180.137:8006/v1")), []).
Proof.
  split; [|split].
  - apply (proj1 (create_llm_client_fails_fast _ "anthropic" [])
             "ANTHROPIC_API_KEY").
    + simpl. tauto.
    + reflexivity.
  - apply (proj1 (proj2 (create_llm_client_fails_fast happy_env "mistral"
                           []))).
    reflexivity.
  - apply (proj1 (proj2 (proj2 (create_llm_client_fails_fast _ "local" [])))).
    reflexivity.
Defined.

(** ** Steps that neither account, nor bill, nor send *)

Lemma quiet_ret {A} (a : A) : quiet (ret a).
Proof. intros w. now cbn. Qed.

Lemma quiet_raise {A} (e : Exception) : quiet (@raise A e).
Proof. intros w. now cbn. Qed.

Lemma quiet_call {A} (r : Exception + A) : quiet (call r).
Proof. destruct r; [apply quiet_raise | apply quiet_ret]. Qed.

Lemma quiet_bind {A B} (m : M A) (k : A -> M B) :
  quiet m -> (forall a, quiet (k a)) -> quiet (bind m k).
Proof.
  intros Hm Hk w. unfold bind. specialize (Hm w).
  destruct (m w) as [[a|e] w1]; simpl in *.
  - destruct (Hk a w1) as (H1 & H2 & H3), Hm as (H4 & H5 & H6).
    repeat split; congruence.
  - exact Hm.
Qed.

Lemma quiet_encode_image_file (E : Env) (path : string) :
  quiet (encode_image_file E path).
Proof.
  unfold encode_image_file. apply quiet_bind.
  - intros w. now cbn.
  - intros _. apply quiet_bind; [apply quiet_call | intros; apply quiet_ret].
Qed.

Lemma quiet_openai_kwargs (E : Env) (prompt : string) (model : OptStr)
    (provider : string) (image_path : OptStr) :
  quiet (openai_kwargs E prompt model provider image_path).
Proof.
  unfold openai_kwargs. apply quiet_bind; [|intros; apply quiet_ret].
  destruct image_path as [path|]; [|apply quiet_ret].
  destruct (truthy (Some path)); [|apply quiet_ret].
  destruct (provider =? "openai"); [|apply quiet_ret].
  apply quiet_bind; [apply quiet_encode_image_file|].
  intros [enc mime]. apply quiet_ret.
Qed.

Lemma quiet_anthropic_messages (E : Env) (prompt : string)
    (image_path : OptStr) :
  quiet (anthropic_messages E prompt image_path).
Proof.
  unfold anthropic_messages.
  destruct image_path as [path|]; [|apply quiet_ret].
  destruct (truthy (Some path)); [|apply quiet_ret].
  apply quiet_bind; [apply quiet_encode_image_file|].
  intros [enc mime]. apply quiet_ret.
Qed.

Lemma quiet_get_client (E : Env) (client : option Client) (p : string) :
  quiet (get_client E client p).
Proof.
  destruct client as [c|]; [apply quiet_ret|]. intros w. simpl.
  destruct (create_llm_client_tracked E p w) as [H1 H2].
  auto using create_llm_client_network.
Qed.

(** ** What reaches the ledger *)

Lemma openai_record_ledger (E : Env) (c : Client) (kwargs : Dict)
    (provider : string) (model : OptStr) (response : ChatCompletion)
    (w : World) :
  str_in provider openai_style = true ->
  chat_completions_create E c kwargs = inr response ->
  ledger_step E provider model w
    (snd (openai_record E provider model (time_start E) response w)).
Proof.
  intros Hp Hr. unfold openai_record, openai_token_usage. run.
  destruct model as [m|]; [|now left].
  destruct (read_reasoning m (usage response)) as [e|reasoning] eqn:Hrr;
    [now left|].
  cbn [tu_prompt_tokens tu_completion_tokens].
  destruct (calculate_openai_cost E _ _ _) as [e|cost] eqn:Hc; [now left|].
  destruct (choices response) as [|text rest]; [now left|].
  right. eexists. split.
  - destruct (track_request E _); reflexivity.
  - now apply (AccountedOpenAI E provider (Some m) c kwargs response m
                 reasoning).
Qed.

Lemma anthropic_record_ledger (E : Env) (c : Client) (messages : list Message)
    (provider : string) (model : OptStr) (response : AnthropicMessage)
    (w : World) :
  str_in provider openai_style = false ->
  provider = "anthropic" ->
  messages_create E c model 1000 messages = inr response ->
  ledger_step E provider model w
    (snd (anthropic_record E provider model (time_start E) response w)).
Proof.
  intros Hs Hp Hr. unfold anthropic_record, anthropic_token_usage. run.
  cbn [tu_prompt_tokens tu_completion_tokens].
  destruct (calculate_claude_cost E _ _ _) as [e|cost] eqn:Hc; [now left|].
  destruct (content_text response) as [|text rest]; [now left|].
  right. eexists. split.
  - destruct (track_request E _); reflexivity.
  - now apply (AccountedAnthropic E provider model c messages response).
Qed.

Lemma query_llm_try_ledger (E : Env) (prompt : string) (c : Client)
    (model : OptStr) (provider : string) (image_path : OptStr) (w : World) :
  ledger_step E provider (default_model E provider model) w
    (snd (query_llm_try E prompt c model provider image_path w)).
Proof.
  unfold query_llm_try.
  destruct (str_in provider openai_style) eqn:Hs.
  - unfold bind at 1.
    destruct (quiet_openai_kwargs E prompt (default_model E provider model)
                provider image_path w) as (Ht & _).
    destruct (openai_kwargs _ _ _ _ _ w) as [[kwargs|e] w1];
      simpl in Ht; [|now left].
    run. destruct (chat_completions_create E c kwargs) as [e|response] eqn:Hr;
      [left; exact Ht|].
    unfold ledger_step. rewrite <- Ht.
    apply (openai_record_ledger E c kwargs provider _ response
             (EvChatCreate c kwargs :: w1) Hs Hr).
  - destruct (provider =? "anthropic") eqn:Hp.
    + apply String.eqb_eq in Hp. unfold bind at 1.
      destruct (quiet_anthropic_messages E prompt image_path w) as (Ht & _).
      destruct (anthropic_messages _ _ _ w) as [[messages|e] w1];
        simpl in Ht; [|now left].
      run.
      destruct (messages_create E c _ 1000 messages) as [e|response] eqn:Hr;
        [left; exact Ht|].
      unfold ledger_step. rewrite <- Ht.
      apply (anthropic_record_ledger E c messages provider _ response
               (EvMessagesCreate c (default_model E provider model) 1000
                  messages :: w1) Hs Hp Hr).
    + destruct (provider =? "gemini"); [|now left]. run.
      destruct (GenerativeModel E c _); [now left|].
      destruct (generate_content E c _ prompt) as [e|response]; [now left|].
      destruct (text response); now left.
Qed.

Lemma query_llm_ledger (E : Env) (prompt : string) (client : option Client)
    (model : OptStr) (provider : string) (image_path : OptStr) (w : World) :
  ledger_step E provider (default_model E provider model) w
    (snd (query_llm E prompt client model provider image_path w)).
Proof.
  unfold query_llm. unfold bind at 1.
  destruct (quiet_get_client E client provider w) as (Ht & _).
  destruct (get_client E client provider w) as [[c|e] w0]; simpl in Ht;
    [|now left].
  unfold try_except.
  pose proof (query_llm_try_ledger E prompt c model provider image_path w0)
    as H.
  destruct (query_llm_try E prompt c model provider image_path w0)
    as [[r|e] w1]; simpl in *; unfold ledger_step in *; rewrite <- Ht; auto.
Qed.

Lemma ledger_step_new (E : Env) (provider : string) (model : OptStr)
    (w w' : World) (r : APIResponse) :
  ledger_step E provider model w w' ->
  tracked w' = r :: tracked w ->
  Accounted E provider model r.
Proof.
  intros [Hsame | (r0 & Hnew & Hacc)] Hr.
  - rewrite Hsame in Hr. apply (f_equal (@length _)) in Hr. simpl in Hr. lia.
  - rewrite Hnew in Hr. now injection Hr as <-.
Qed.

(** ** Usage records *)

Lemma lower_ascii_o (a : ascii) :
  lower_ascii a = "o"%char <-> a = "o"%char \/ a = "O"%char.
Proof.
  destruct a as [[] [] [] [] [] [] [] []]; vm_compute;
    split; intros H; try discriminate H; auto;
    destruct H as [H|H]; discriminate H.
Qed.

Lemma startswith_lower_cons (c : ascii) (rest : string) :
  startswith (lower (String c rest)) "o" = Ascii.eqb (lower_ascii c) "o".
Proof.
  destruct rest; destruct c as [[] [] [] [] [] [] [] []]; reflexivity.
Qed.

(** The test [model.lower().startswith("o")] looks at the first character
    only: it holds exactly for names that begin with [o] or [O]. *)
Lemma startswith_lower_o (m : string) :
  startswith (lower m) "o" = true <->
  exists c rest, m = String c rest /\ (c = "o"%char \/ c = "O"%char).
Proof.
  destruct m as [|c rest].
  - split; [discriminate | intros (c & rest & H & _); discriminate].
  - rewrite startswith_lower_cons, Ascii.eqb_eq, lower_ascii_o. split.
    + intros H. now exists c, rest.
    + intros (c' & rest' & H & Hc). now injection H as <- <-.
Qed.

(** A provider-reported total that is not the sum is kept as reported. *)
Example run_openai_odd_total :
  tracked
    (snd (query_llm
            (const_env all_keys
               (inr {| choices := [Some "ok"];
                       usage := mkCompletionUsage 1 2 7 (inr None) |})
               (inr claude_hello) (inr {| text := inr "hello" |})
               (inr (1 # 100)) None)
            "hi" None None "deepseek" None [])) =
  [{| ar_content := Some "ok";
      ar_token_usage := mkTokenUsage 1 2 7 None;
      ar_cost := 1 # 100;
      ar_thinking_time := 12 - 10;
      ar_provider := "deepseek";
      ar_model := Some "deepseek-chat" |}].
Proof. reflexivity. Qed.

(** C5: a usage record built by [query_llm] has
    [total_tokens = prompt_tokens + completion_tokens], except on the
    OpenAI-style branch, where the three counts are the provider-reported
    ones and the reported total is stored as it is. *)
Theorem total_tokens_invariant (E : Env) (prompt : string)
    (client : option Client) (model : OptStr) (provider : string)
    (image_path : OptStr) (w : World) :
  (forall response,
      tu_total_tokens (anthropic_token_usage response) =
      (tu_prompt_tokens (anthropic_token_usage response) +
       tu_completion_tokens (anthropic_token_usage response))%Z) /\
  (forall m response w0 tu w1,
      openai_token_usage m response w0 = (Ok tu, w1) ->
      tu_total_tokens tu = total_tokens (usage response)) /\
  (forall r,
      tracked (snd (query_llm E prompt client model provider image_path w)) =
      r :: tracked w ->
      (str_in provider openai_style = false ->
       tu_total_tokens (ar_token_usage r) =
       (tu_prompt_tokens (ar_token_usage r) +
        tu_completion_tokens (ar_token_usage r))%Z) /\
      (str_in provider openai_style = true ->
       exists c kwargs response,
         chat_completions_create E c kwargs = inr response /\
         tu_prompt_tokens (ar_token_usage r) =
         prompt_tokens (usage response) /\
         tu_completion_tokens (ar_token_usage r) =
         completion_tokens (usage response) /\
         tu_total_tokens (ar_token_usage r) =
         total_tokens (usage response))).
Proof.
  split; [reflexivity|]. split.
  - intros [m|] response w0 tu w1; [|discriminate].
    unfold openai_token_usage. run.
    destruct (read_reasoning m (usage response)); [discriminate|].
    intros H. injection H as <- _. reflexivity.
  - intros r Hr.
    pose proof (query_llm_ledger E prompt client model provider image_path w)
      as Hstep.
    apply (ledger_step_new _ _ _ _ _ r) in Hstep; [|exact Hr].
    inversion Hstep as [c kwargs response m' rt text cost Hs _ Hresp _ _ Hrec
                       | c msgs response text cost Hs _ _ _ Hrec]; simpl.
    + split; [congruence|]. intros _. now exists c, kwargs, response.
    + split; [reflexivity | congruence].
Qed.

Lemma total_tokens_invariant_witness :
  (42 = 12 + 30)%Z /\
  (exists c kwargs response,
      chat_completions_create happy_env c kwargs = inr response /\
      12%Z = prompt_tokens (usage response) /\
      100%Z = completion_tokens (usage response) /\
      112%Z = total_tokens (usage response)).
Proof.
  split.
  - apply (proj2 (proj2 (total_tokens_invariant happy_env "hi" None None
                           "anthropic" None []))
             {| ar_content := Some "hello";
                ar_token_usage := mkTokenUsage 12 30 42 None;
                ar_cost := 1 # 100;
                ar_thinking_time := 12 - 10;
                ar_provider := "anthropic";
                ar_model := Some "claude-3-5-sonnet-20241022" |});
      reflexivity.
  - apply (proj2 (proj2 (total_tokens_invariant happy_env "hi" None None
                           "openai" None []))
             {| ar_content := Some "hello";
                ar_token_usage := mkTokenUsage 12 100 112 None;
                ar_cost := 1 # 100;
                ar_thinking_time := 12 - 10;
                ar_provider := "openai";
                ar_model := Some "gpt-4o" |});
      reflexivity.
Defined.

(** ** Providers outside the dispatch *)

(** C10: with a client supplied and a provider that is none of the six
    recognised names, [query_llm] returns [None] and the log is untouched:
    no request is sent and nothing reaches the tracker. *)
Theorem unknown_provider_returns_none (E : Env) (prompt : string)
    (c : Client) (model : OptStr) (provider : string) (image_path : OptStr)
    (w : World) :
  str_in provider supported = false ->
  query_llm E prompt (Some c) model provider image_path w = (Ok None, w).
Proof.
  intros H. apply str_in_supported in H.
  destruct H as (H1 & H2 & H3 & H4 & H5 & H6).
  unfold query_llm, get_client, query_llm_try. run.
  rewrite str_in_openai_style, H1, H2, H3, H4, H5, H6. reflexivity.
Qed.

Lemma unknown_provider_returns_none_witness :
  query_llm happy_env "hi" (Some (OpenAI "sk-test" None)) (Some "mistral-7b")
    "mistral" (Some "cat.jpg") [EvStdout "earlier"] =
  (Ok None, [EvStdout "earlier"]).
Proof.
  apply unknown_provider_returns_none. reflexivity.
Defined.

(** ** Gemini: no usage, no accounting *)

(** C2: for provider ["gemini"] no cost is computed and nothing is handed
    to the tracker, whatever happens; and when the provider answers with a
    text, that text is what [query_llm] returns. *)
Theorem gemini_untracked (E : Env) (prompt : string)
    (client : option Client) (model : OptStr) (image_path : OptStr)
    (w : World) :
  tracked (snd (query_llm E prompt client model "gemini" image_path w)) =
  tracked w /\
  costs (snd (query_llm E prompt client model "gemini" image_path w)) =
  costs w /\
  (forall c w0 response t,
      get_client E client "gemini" w = (Ok c, w0) ->
      GenerativeModel E c (default_model E "gemini" model) = None ->
      generate_content E c (default_model E "gemini" model) prompt =
      inr response ->
      text response = inr t ->
      query_llm E prompt client model "gemini" image_path w =
      (Ok (Some t),
       EvGenerateContent c (default_model E "gemini" model) prompt :: w0)).
Proof.
  assert (Hq : forall c w0,
             let w1 := snd (try_except
                              (query_llm_try E prompt c model "gemini"
                                 image_path) query_llm_except w0) in
             tracked w1 = tracked w0 /\ costs w1 = costs w0).
  { intros c w0. unfold query_llm_try, query_llm_except.
    change (str_in "gemini" openai_style) with false.
    change ("gemini" =? "anthropic") with false.
    change ("gemini" =? "gemini") with true. run.
    destruct (GenerativeModel E c _); [now split|].
    destruct (generate_content E c _ prompt) as [e|response]; [now split|].
    destruct (text response); now split. }
  unfold query_llm. unfold bind at 1 2 3.
  destruct (quiet_get_client E client "gemini" w) as (Ht & Hc & _).
  destruct (get_client E client "gemini" w) as [[c|e] w0] eqn:Hg;
    simpl in Ht, Hc.
  - destruct (Hq c w0) as [Ht0 Hc0]. rewrite <- Ht, <- Hc.
    split; [exact Ht0|]. split; [exact Hc0|].
    intros c' w0' response t Heq Hgm Hgc Ht'.
    injection Heq as <- <-.
    unfold query_llm_try, try_except.
    change (str_in "gemini" openai_style) with false.
    change ("gemini" =? "anthropic") with false.
    change ("gemini" =? "gemini") with true. run.
    now rewrite Hgm, Hgc, Ht'.
  - split; [exact Ht|]. split; [exact Hc|]. intros; discriminate.
Qed.

Lemma gemini_untracked_witness :
  query_llm happy_env "hi" None None "gemini" (Some "cat.jpg") [] =
  (Ok (Some "hello"),
   [EvGenerateContent genai (Some "gemini-pro") "hi"; EvConfigure "sk-test"]).
Proof.
  apply (proj2 (proj2 (gemini_untracked happy_env "hi" None None
                         (Some "cat.jpg") []))
           genai [EvConfigure "sk-test"] {| text := inr "hello" |} "hello");
    reflexivity.
Defined.

(** ** The provider call and what follows it *)

(** The [try] block from its provider call on. *)
Lemma query_llm_try_from_call (E : Env) (c : Client) (prompt : string)
    (model : OptStr) (provider : string) (image_path : OptStr)
    (w w1 : World) (a : Exception + ApiAnswer) :
  api_call E c prompt (default_model E provider model) provider image_path
    w w1 a ->
  query_llm_try E prompt c model provider image_path w =
  match a with
  | inl e => (Raised e, w1)
  | inr (ChatAnswer response) =>
      openai_record E provider (default_model E provider model)
        (time_start E) response w1
  | inr (MessagesAnswer response) =>
      anthropic_record E provider (default_model E provider model)
        (time_start E) response w1
  | inr (GeminiAnswer response) =>
      match text response with
      | inl e => (Raised e, w1)
      | inr t => (Ok (Some t), w1)
      end
  end.
Proof.
  intros H. unfold query_llm_try.
  destruct H as [kwargs w1 Hs Hk | messages w1 Hs Hp Hm | Hp Hg].
  - rewrite Hs. unfold bind at 1. rewrite Hk. run.
    now destruct (chat_completions_create E c kwargs).
  - rewrite Hs. subst provider. change ("anthropic" =? "anthropic") with true.
    cbv iota. unfold bind at 1. rewrite Hm. run.
    now destruct (messages_create E c _ 1000 messages).
  - subst provider. change (str_in "gemini" openai_style) with false.
    change ("gemini" =? "anthropic") with false.
    change ("gemini" =? "gemini") with true. run. rewrite Hg.
    destruct (generate_content E c _ prompt) as [e|response];
      [reflexivity|]. simpl. now destruct (text response).
Qed.

Lemma api_call_quiet (E : Env) (c : Client) (prompt : string)
    (model : OptStr) (provider : string) (image_path : OptStr)
    (w w1 : World) (a : Exception + ApiAnswer) :
  api_call E c prompt model provider image_path w w1 a ->
  tracked w1 = tracked w /\ costs w1 = costs w.
Proof.
  intros [kwargs w0 Hs Hk | messages w0 Hs Hp Hm | Hp Hg].
  - destruct (quiet_openai_kwargs E prompt model provider image_path w)
      as (Ht & Hc & _).
    rewrite Hk in Ht, Hc. now simpl in *.
  - destruct (quiet_anthropic_messages E prompt image_path w)
      as (Ht & Hc & _).
    rewrite Hm in Ht, Hc. now simpl in *.
  - now simpl.
Qed.

(** ** Provider errors *)

(** C6: when the provider call raises, [query_llm] reports the error on
    standard error and returns [None]; no cost is computed and no record
    is handed to the tracker. *)
Theorem api_error_returns_none (E : Env) (prompt : string)
    (client : option Client) (model : OptStr) (provider : string)
    (image_path : OptStr) (w w0 w1 : World) (c : Client) (e : Exception) :
  get_client E client provider w = (Ok c, w0) ->
  api_call E c prompt (default_model E provider model) provider image_path
    w0 w1 (inl e) ->
  query_llm E prompt client model provider image_path w =
  (Ok None, EvStderr ("Error querying LLM: " ++ str e) :: w1) /\
  tracked (snd (query_llm E prompt client model provider image_path w)) =
  tracked w /\
  costs (snd (query_llm E prompt client model provider image_path w)) =
  costs w.
Proof.
  intros Hg Hcall.
  assert (Hrun : query_llm E prompt client model provider image_path w =
                 (Ok None, EvStderr ("Error querying LLM: " ++ str e) :: w1)).
  { unfold query_llm. unfold bind at 1. rewrite Hg. unfold try_except.
    rewrite (query_llm_try_from_call _ _ _ _ _ _ _ _ _ Hcall).
    reflexivity. }
  rewrite Hrun. split; [reflexivity|].
  destruct (api_call_quiet _ _ _ _ _ _ _ _ _ Hcall) as [Ht Hc].
  destruct (quiet_get_client E client provider w) as (Ht0 & Hc0 & _).
  rewrite Hg in Ht0, Hc0. simpl in *. split; congruence.
Qed.

Lemma api_error_returns_none_witness :
  query_llm api_fails_env "hi" None None "openai" None [] =
  (Ok None,
   [EvStderr "Error querying LLM: timeout";
    EvChatCreate (OpenAI "sk-test" None)
      [("model", KwModel (Some "gpt-4o"));
       ("messages", KwMessages [mkMessage "user" [TextPart "hi"]]);
       ("temperature", KwFloat (7 # 10))]]) /\
  query_llm api_fails_env "hi" None None "anthropic" None [] =
  (Ok None,
   [EvStderr "Error querying LLM: timeout";
    EvMessagesCreate (Anthropic "sk-test")
      (Some "claude-3-5-sonnet-20241022") 1000
      [mkMessage "user" [TextPart "hi"]]]) /\
  query_llm api_fails_env "hi" (Some genai) None "gemini" None [] =
  (Ok None,
   [EvStderr "Error querying LLM: timeout";
    EvGenerateContent genai (Some "gemini-pro") "hi"]).
Proof.
  split; [|split].
  - apply (api_error_returns_none api_fails_env "hi" None None "openai" None
             [] [] _ (OpenAI "sk-test" None) (APIError "timeout") eq_refl).
    apply (CallChat api_fails_env _ "hi" (Some "gpt-4o") "openai" None []
             _ [] eq_refl eq_refl).
  - apply (api_error_returns_none api_fails_env "hi" None None "anthropic"
             None [] [] _ (Anthropic "sk-test") (APIError "timeout") eq_refl).
    apply (CallMessages api_fails_env _ "hi"
             (Some "claude-3-5-sonnet-20241022") "anthropic" None []
             _ [] eq_refl eq_refl eq_refl).
  - apply (api_error_returns_none api_fails_env "hi" (Some genai) None
             "gemini" None [] [] _ genai (APIError "timeout") eq_refl).
    apply (CallGemini api_fails_env genai "hi" (Some "gemini-pro") "gemini"
             None [] eq_refl eq_refl).
Defined.

(** ** Failures of the accounting *)

(** C1 as stated fails: the provider answers ["hello"], the cost
    calculation raises, and the caller gets [None], not the text. *)
Lemma tracking_failure_loses_response :
  let kwargs := [("model", KwModel (Some "gpt-4o"));
                 ("messages", KwMessages [mkMessage "user" [TextPart "hi"]]);
                 ("temperature", KwFloat (7 # 10))] in
  chat_completions_create cost_fails_env (OpenAI "sk-test" None) kwargs =
  inr chat_hello /\
  choices chat_hello = [Some "hello"] /\
  calculate_openai_cost cost_fails_env 12 100 (Some "gpt-4o") =
  inl (APIError "no pricing") /\
  query_llm cost_fails_env "hi" (Some (OpenAI "sk-test" None)) None "openai"
    None [] =
  (Ok None,
   [EvStderr "Error querying LLM: no pricing";
    EvCost OpenAICost 12 100 (Some "gpt-4o");
    EvChatCreate (OpenAI "sk-test" None) kwargs]) /\
  fst (query_llm cost_fails_env "hi" (Some (OpenAI "sk-test" None)) None
         "openai" None []) <> Ok (Some "hello").
Proof.
  repeat split. discriminate.
Qed.

(** The same when [track_request] is what raises. *)
Example run_track_fails :
  query_llm track_fails_env "hi" (Some (Anthropic "sk-test")) None
    "anthropic" None [] =
  (Ok None,
   [EvStderr "Error querying LLM: ledger closed";
    EvTrack {| ar_content := Some "hello";
               ar_token_usage := mkTokenUsage 12 30 42 None;
               ar_cost := 1 # 100;
               ar_thinking_time := 12 - 10;
               ar_provider := "anthropic";
               ar_model := Some "claude-3-5-sonnet-20241022" |};
    EvCost ClaudeCost 12 30 (Some "claude-3-5-sonnet-20241022");
    EvMessagesCreate (Anthropic "sk-test")
      (Some "claude-3-5-sonnet-20241022") 1000
      [mkMessage "user" [TextPart "hi"]]]).
Proof. reflexivity. Qed.

(** C1, as the code has it: when the provider call succeeds and the cost
    calculation or [track_request] then raises, the one handler of
    [query_llm] catches the exception, reports it on standard error, and
    the caller gets [None]. *)
Theorem tracking_failure_returns_none (E : Env) (prompt : string)
    (client : option Client) (model : OptStr) (provider : string)
    (image_path : OptStr) (w w0 w1 : World) (c : Client) (a : ApiAnswer)
    (e : Exception) :
  get_client E client provider w = (Ok c, w0) ->
  api_call E c prompt (default_model E provider model) provider image_path
    w0 w1 (inr a) ->
  accounting_raises E provider (default_model E provider model) a e ->
  exists w2,
    query_llm E prompt client model provider image_path w =
    (Ok None, EvStderr ("Error querying LLM: " ++ str e) :: w2).
Proof.
  intros Hg Hcall Hacc.
  unfold query_llm. unfold bind at 1. rewrite Hg. unfold try_except.
  rewrite (query_llm_try_from_call _ _ _ _ _ _ _ _ _ Hcall).
  destruct Hacc as [response m rt e Hm Hrt Hc
                   | response m rt text rest cost e Hm Hrt Hc Ht Hk
                   | response e Hc | response text rest cost e Hc Ht Hk].
  - unfold openai_record, openai_token_usage. rewrite Hm in *. run.
    rewrite Hrt. cbn [tu_prompt_tokens tu_completion_tokens]. rewrite Hc.
    eexists; reflexivity.
  - unfold openai_record, openai_token_usage. rewrite Hm in *. run.
    rewrite Hrt. cbn [tu_prompt_tokens tu_completion_tokens]. rewrite Hc, Ht.
    cbv iota beta. rewrite Hk. eexists; reflexivity.
  - unfold anthropic_record. run.
    cbn [anthropic_token_usage tu_prompt_tokens tu_completion_tokens].
    rewrite Hc. eexists; reflexivity.
  - unfold anthropic_record. run.
    cbn [anthropic_token_usage tu_prompt_tokens tu_completion_tokens].
    rewrite Hc, Ht. cbv iota beta.
    change (mkTokenUsage (input_tokens response) (output_tokens response)
              (input_tokens response + output_tokens response) None)
      with (anthropic_token_usage response).
    rewrite Hk. eexists; reflexivity.
Qed.

Lemma tracking_failure_returns_none_witness :
  (exists w2,
      query_llm cost_fails_env "hi" None None "openai" None [] =
      (Ok None, EvStderr "Error querying LLM: no pricing" :: w2)) /\
  (exists w2,
      query_llm track_fails_env "hi" None None "anthropic" None [] =
      (Ok None, EvStderr "Error querying LLM: ledger closed" :: w2)).
Proof.
  split.
  - eapply (tracking_failure_returns_none cost_fails_env "hi" None None
             "openai" None [] [] _ (OpenAI "sk-test" None)
             (ChatAnswer chat_hello) (APIError "no pricing") eq_refl).
    + apply (CallChat cost_fails_env _ "hi" (Some "gpt-4o") "openai" None []
               _ [] eq_refl eq_refl).
    + apply (CostRaisesOpenAI cost_fails_env "openai" (Some "gpt-4o")
               chat_hello "gpt-4o" None _ eq_refl eq_refl eq_refl).
  - eapply (tracking_failure_returns_none track_fails_env "hi" None None
             "anthropic" None [] [] _ (Anthropic "sk-test")
             (MessagesAnswer claude_hello) (APIError "ledger closed")
             eq_refl).
    + apply (CallMessages track_fails_env _ "hi"
               (Some "claude-3-5-sonnet-20241022") "anthropic" None []
               _ [] eq_refl eq_refl eq_refl).
    + apply (TrackRaisesClaude track_fails_env "anthropic"
               (Some "claude-3-5-sonnet-20241022") claude_hello "hello" []
               (1 # 100) _ eq_refl eq_refl eq_refl).
Defined.

(** ** The command line *)

Lemma query_llm_returns (E : Env) (prompt : string) (c : Client)
    (model : OptStr) (provider : string) (image_path : OptStr) (w : World) :
  exists r w',
    query_llm E prompt (Some c) model provider image_path w = (Ok r, w').
Proof.
  unfold query_llm, get_client, query_llm_except. run.
  destruct (query_llm_try E prompt c model provider image_path w)
    as [[r|e] w']; eauto.
Qed.

(** C8 as stated fails: Gemini answers with the empty text, [query_llm]
    returns it, and [main] prints the failure message instead of the
    response. *)
Lemma main_reports_empty_response_as_failure :
  create_llm_client empty_text_env "gemini" [] =
  (Ok genai, [EvConfigure "sk-test"]) /\
  query_llm empty_text_env "hi" (Some genai) (Some "gemini-2.0-flash-exp")
    "gemini" None [EvConfigure "sk-test"] =
  (Ok (Some ""),
   [EvGenerateContent genai (Some "gemini-2.0-flash-exp") "hi";
    EvConfigure "sk-test"]) /\
  main empty_text_env (mkArgv (Some "hi") (Some "gemini") None None) [] =
  (Returned,
   [EvStdout "Failed to get response from LLM";
    EvGenerateContent genai (Some "gemini-2.0-flash-exp") "hi";
    EvConfigure "sk-test"]) /\
  stdout (snd (main empty_text_env
                 (mkArgv (Some "hi") (Some "gemini") None None) [])) <>
  [""].
Proof.
  repeat split. discriminate.
Qed.

Example run_main_openai :
  stdout (snd (main happy_env (mkArgv (Some "hi") None None None) [])) =
  ["hello"].
Proof. reflexivity. Qed.

Example run_main_missing_key :
  main (const_env no_keys (inr chat_hello) (inr claude_hello)
          (inr {| text := inr "hello" |}) (inr (1 # 100)) None)
    (mkArgv (Some "hi") (Some "openai") None None) [] =
  (Uncaught
     (ValueError "OPENAI_API_KEY not found in environment variables"),
   []).
Proof. reflexivity. Qed.

Example run_main_bad_provider :
  main happy_env (mkArgv (Some "hi") (Some "mistral") None None) [] =
  (SystemExit 2, []) /\
  main happy_env (mkArgv None (Some "openai") None None) [] =
  (SystemExit 2, []).
Proof. split; reflexivity. Qed.

(** C8, as the code has it: once the arguments are parsed and the client
    exists, [main] prints the response on standard output when
    [query_llm] returns a non-empty text; when [query_llm] returns [None]
    or the empty text it prints the failure message on standard output;
    either way it returns normally, so the exit status is 0. *)
Theorem main_prints_response_or_failure (E : Env) (argv : Argv)
    (args : Args) (w w0 : World) (c : Client) :
  parse_args argv = inr args ->
  create_llm_client E (arg_provider args) w = (Ok c, w0) ->
  (forall t w1,
      query_llm E (arg_prompt args) (Some c) (cli_model E args)
        (arg_provider args) (arg_image args) w0 = (Ok (Some t), w1) ->
      t <> "" ->
      main E argv w = (Returned, EvStdout t :: w1)) /\
  (forall r w1,
      query_llm E (arg_prompt args) (Some c) (cli_model E args)
        (arg_provider args) (arg_image args) w0 = (Ok r, w1) ->
      r = None \/ r = Some "" ->
      main E argv w =
      (Returned, EvStdout "Failed to get response from LLM" :: w1)) /\
  exit_status (fst (main E argv w)) = 0%Z.
Proof.
  intros Hparse Hc. unfold main. rewrite Hparse.
  unfold main_parsed. unfold bind at 1 3 5. rewrite Hc.
  unfold bind. repeat split.
  - intros t w1 Hq Ht. rewrite Hq. unfold truthy.
    apply String.eqb_neq in Ht. now rewrite Ht.
  - intros r w1 Hq [-> | ->]; now rewrite Hq.
  - destruct (query_llm_returns E (arg_prompt args) c (cli_model E args)
                (arg_provider args) (arg_image args) w0) as (r & w1 & Hq).
    rewrite Hq. now destruct (truthy r).
Qed.

Lemma main_prints_response_or_failure_witness :
  main happy_env (mkArgv (Some "hi") (Some "anthropic") None None) [] =
  (Returned,
   EvStdout "hello"
   :: snd (query_llm happy_env "hi" (Some (Anthropic "sk-test"))
             (Some "claude-3-5-sonnet-20241022") "anthropic" None [])) /\
  main api_fails_env (mkArgv (Some "hi") (Some "anthropic") None None) [] =
  (Returned,
   EvStdout "Failed to get response from LLM"
   :: snd (query_llm api_fails_env "hi" (Some (Anthropic "sk-test"))
             (Some "claude-3-5-sonnet-20241022") "anthropic" None [])).
Proof.
  split.
  - apply (proj1 (main_prints_response_or_failure happy_env
                    (mkArgv (Some "hi") (Some "anthropic") None None)
                    (mkArgs "hi" "anthropic" None None) [] []
                    (Anthropic "sk-test") eq_refl eq_refl) "hello").
    + reflexivity.
    + discriminate.
  - apply (proj1 (proj2 (main_prints_response_or_failure api_fails_env
                           (mkArgv (Some "hi") (Some "anthropic") None None)
                           (mkArgs "hi" "anthropic" None None) [] []
                           (Anthropic "sk-test") eq_refl eq_refl)) None).
    + reflexivity.
    + now left.
Defined.

(** ** Image attachments *)

Lemma str_in_image_blind (p : string) :
  str_in p image_blind = true ->
  (p =? "openai") = false /\ (p =? "anthropic") = false.
Proof.
  unfold str_in, image_blind. simpl. rewrite !orb_true_iff.
  intros [H|[H|[H|[H|H]]]]; try discriminate H;
    apply String.eqb_eq in H; subst p; split; reflexivity.
Qed.

Lemma openai_record_network (E : Env) (provider : string) (model : OptStr)
    (start_time : Q) (response : ChatCompletion) (w : World) :
  network (snd (openai_record E provider model start_time response w)) =
  network w.
Proof.
  unfold openai_record, openai_token_usage. run.
  destruct model as [m|]; [|reflexivity].
  destruct (read_reasoning m (usage response)); [reflexivity|].
  cbn [tu_prompt_tokens tu_completion_tokens].
  destruct (calculate_openai_cost E _ _ _); [reflexivity|].
  destruct (choices response); [reflexivity|].
  destruct (track_request E _); reflexivity.
Qed.

Lemma anthropic_record_network (E : Env) (provider : string) (model : OptStr)
    (start_time : Q) (response : AnthropicMessage) (w : World) :
  network (snd (anthropic_record E provider model start_time response w)) =
  network w.
Proof.
  unfold anthropic_record. run.
  destruct (calculate_claude_cost E _ _ _); [reflexivity|].
  destruct (content_text response); [reflexivity|].
  destruct (track_request E _); reflexivity.
Qed.

(** The request leaves before the answer is known, and nothing is sent
    after it. *)
Lemma query_llm_network_after_call (E : Env) (prompt : string)
    (client : option Client) (model : OptStr) (provider : string)
    (image_path : OptStr) (w w0 w1 : World) (c : Client)
    (a : Exception + ApiAnswer) :
  get_client E client provider w = (Ok c, w0) ->
  api_call E c prompt (default_model E provider model) provider image_path
    w0 w1 a ->
  network (snd (query_llm E prompt client model provider image_path w)) =
  network w1.
Proof.
  intros Hg Hcall. unfold query_llm. unfold bind at 1. rewrite Hg.
  unfold try_except.
  rewrite (query_llm_try_from_call _ _ _ _ _ _ _ _ _ Hcall).
  destruct a as [e | [response | response | response]].
  - reflexivity.
  - pose proof (openai_record_network E provider
                  (default_model E provider model) (time_start E) response w1)
      as H.
    destruct (openai_record _ _ _ _ _ w1) as [[r|e] w2]; exact H.
  - pose proof (anthropic_record_network E provider
                  (default_model E provider model) (time_start E) response w1)
      as H.
    destruct (anthropic_record _ _ _ _ _ w1) as [[r|e] w2]; exact H.
  - destruct (text response); reflexivity.
Qed.

Lemma openai_kwargs_no_image (E : Env) (prompt : string) (model : OptStr)
    (provider : string) (w : World) :
  exists kwargs,
    openai_kwargs E prompt model provider None w = (Ok kwargs, w) /\
    carries_image (EvChatCreate (OpenAI "" None) kwargs) = false.
Proof.
  unfold openai_kwargs. run. eexists. split; [reflexivity|].
  destruct (model_eqb model "o1"); reflexivity.
Qed.

Lemma query_llm_try_image_blind (E : Env) (prompt : string) (c : Client)
    (model : OptStr) (provider : string) (image_path : OptStr) (w : World) :
  (provider =? "openai") = false ->
  (provider =? "anthropic") = false ->
  query_llm_try E prompt c model provider image_path w =
  query_llm_try E prompt c model provider None w.
Proof.
  intros Ho Ha. unfold query_llm_try. rewrite Ha.
  destruct (str_in provider openai_style); [|reflexivity].
  unfold bind at 1 3. unfold openai_kwargs. rewrite Ho.
  destruct image_path as [path|]; [|reflexivity].
  destruct (truthy (Some path)); reflexivity.
Qed.

(** C9: for azure, deepseek, local and gemini the [image_path] argument
    changes nothing, and the request that leaves carries no image content;
    for openai and anthropic a non-empty [image_path] puts the encoded
    image after the text in the message that is sent. *)
Theorem image_only_for_openai_and_anthropic (E : Env) (prompt : string)
    (client : option Client) (model : OptStr) (provider : string)
    (image_path : OptStr) (w : World) :
  (str_in provider image_blind = true ->
   query_llm E prompt client model provider image_path w =
   query_llm E prompt client model provider None w /\
   (network (snd (query_llm E prompt client model provider image_path w)) =
    network w \/
    exists e,
      network (snd (query_llm E prompt client model provider image_path w)) =
      e :: network w /\ carries_image e = false)) /\
  (forall c w0 w1 path data mime_type,
      image_path = Some path -> path <> "" ->
      get_client E client provider w = (Ok c, w0) ->
      encode_image_file E path w0 = (Ok (data, mime_type), w1) ->
      (provider = "openai" ->
       exists kwargs,
         network (snd (query_llm E prompt client model provider image_path
                         w)) =
         EvChatCreate c kwargs :: network w /\
         dict_get "messages" kwargs =
         Some (KwMessages
                 [mkMessage "user"
                    [TextPart prompt;
                     ImageUrlPart ("data:" ++ mime_type ++ ";base64,"
                                     ++ data)]])) /\
      (provider = "anthropic" ->
       network (snd (query_llm E prompt client model provider image_path w)) =
       EvMessagesCreate c (default_model E provider model) 1000
         [mkMessage "user" [TextPart prompt; ImagePart mime_type data]]
       :: network w)).
Proof.
  split.
  - intros Hb. apply str_in_image_blind in Hb. destruct Hb as [Ho Ha].
    assert (Heq : query_llm E prompt client model provider image_path w =
                  query_llm E prompt client model provider None w).
    { unfold query_llm, bind, try_except.
      destruct (get_client E client provider w) as [[c|e] w0];
        [|reflexivity].
      now rewrite (query_llm_try_image_blind E prompt c model provider
                     image_path w0 Ho Ha). }
    split; [exact Heq|]. rewrite Heq. clear Heq.
    destruct (quiet_get_client E client provider w) as (_ & _ & Hn).
    destruct (get_client E client provider w) as [[c|e] w0] eqn:Hg;
      simpl in Hn.
    + destruct (str_in provider openai_style) eqn:Hs.
      * destruct (openai_kwargs_no_image E prompt
                    (default_model E provider model) provider w0)
          as (kwargs & Hk & Himg).
        right. exists (EvChatCreate c kwargs). split; [|exact Himg].
        rewrite (query_llm_network_after_call E prompt client model provider
                   None w w0 _ c _ Hg
                   (CallChat E c prompt _ provider None w0 kwargs w0 Hs Hk)).
        unfold network in *. simpl. now rewrite Hn.
      * unfold query_llm, query_llm_try, query_llm_except. rewrite Hs, Ha.
        destruct (provider =? "gemini"); run; rewrite Hg;
          [|left; exact Hn].
        destruct (GenerativeModel E c (default_model E provider model));
          [left; exact Hn|].
        right.
        exists (EvGenerateContent c (default_model E provider model) prompt).
        split; [|reflexivity].
        destruct (generate_content E c (default_model E provider model)
                    prompt) as [e|response];
          [|destruct (text response)]; unfold network in *; simpl;
          rewrite Hn; reflexivity.
    + left. unfold query_llm. unfold bind at 1. rewrite Hg. exact Hn.
  - intros c w0 w1 path data mime_type -> Hpath Hg Henc.
    apply String.eqb_neq in Hpath.
    destruct (quiet_get_client E client provider w) as (_ & _ & Hn).
    rewrite Hg in Hn. simpl in Hn.
    destruct (quiet_encode_image_file E path w0) as (_ & _ & Hn1).
    rewrite Henc in Hn1. simpl in Hn1.
    split; intros ->.
    + eexists. split.
      * rewrite (query_llm_network_after_call E prompt client model "openai"
                   (Some path) w w0 _ c _ Hg
                   (CallChat E c prompt _ "openai" (Some path) w0 _ w1
                      eq_refl
                      ltac:(unfold openai_kwargs, truthy; rewrite Hpath;
                            change ("openai" =? "openai") with true;
                            cbv iota; cbn [negb]; unfold bind;
                            rewrite Henc; reflexivity))).
        unfold network in *. simpl. now rewrite Hn1, Hn.
      * destruct (model_eqb (default_model E "openai" model) "o1");
          reflexivity.
    + rewrite (query_llm_network_after_call E prompt client model "anthropic"
                 (Some path) w w0 _ c _ Hg
                 (CallMessages E c prompt _ "anthropic" (Some path) w0 _ w1
                    eq_refl eq_refl
                    ltac:(unfold anthropic_messages, truthy; rewrite Hpath;
                          cbv iota; cbn [negb]; unfold bind;
                          rewrite Henc; reflexivity))).
      unfold network in *. simpl. now rewrite Hn1, Hn.
Qed.

Lemma image_only_for_openai_and_anthropic_witness :
  query_llm happy_env "hi" None None "azure" (Some "cat.jpg") [] =
  query_llm happy_env "hi" None None "azure" None [] /\
  (exists kwargs,
      network (snd (query_llm happy_env "hi" None None "openai"
                      (Some "cat.jpg") [])) =
      [EvChatCreate (OpenAI "sk-test" None) kwargs] /\
      dict_get "messages" kwargs =
      Some (KwMessages
              [mkMessage "user"
                 [TextPart "hi";
                  ImageUrlPart ("data:" ++ "image/jpeg" ++ ";base64,"
                                  ++ "aGk=")]])) /\
  network (snd (query_llm happy_env "hi" None None "anthropic"
                  (Some "cat.jpg") [])) =
  [EvMessagesCreate (Anthropic "sk-test")
     (Some "claude-3-5-sonnet-20241022") 1000
     [mkMessage "user" [TextPart "hi"; ImagePart "image/jpeg" "aGk="]]].
Proof.
  split; [|split].
  - apply (proj1 (image_only_for_openai_and_anthropic happy_env "hi" None
                    None "azure" (Some "cat.jpg") [])).
    reflexivity.
  - apply (proj2 (image_only_for_openai_and_anthropic happy_env "hi" None
                    None "openai" (Some "cat.jpg") [])
             (OpenAI "sk-test" None) [] [EvReadImage "cat.jpg"] "cat.jpg"
             "aGk=" "image/jpeg" eq_refl);
      [discriminate | reflexivity | reflexivity | reflexivity].
  - apply (proj2 (image_only_for_openai_and_anthropic happy_env "hi" None
                    None "anthropic" (Some "cat.jpg") [])
             (Anthropic "sk-test") [] [EvReadImage "cat.jpg"] "cat.jpg"
             "aGk=" "image/jpeg" eq_refl);
      [discriminate | reflexivity | reflexivity | reflexivity].
Defined.

(** ** Billing *)

(** The provider reports 100 completion tokens, 40 of them reasoning
    tokens: the calculator is asked about 12 prompt and 100 completion
    tokens, with or without the reasoning count. *)
Example run_costs_reasoning :
  costs (snd (query_llm happy_env "hi" None (Some "o1") "openai" None [])) =
  [EvCost OpenAICost 12 100 (Some "o1")] /\
  costs (snd (query_llm (report_reasoning None happy_env) "hi" None
                (Some "o1") "openai" None [])) =
  [EvCost OpenAICost 12 100 (Some "o1")].
Proof. split; reflexivity. Qed.

(** Under the formula of the spec all 100 completion tokens are billed at
    the completion price; the 40 reasoning tokens add nothing. *)
Example run_priced_reasoning :
  map ar_cost
    (tracked (snd (query_llm (priced_env (5 # 2) 10 1000000) "hi" None
                     (Some "o1") "openai" None []))) =
  [spec_cost (5 # 2) 10 1000000 12 100] /\
  map (fun r => tu_reasoning_tokens (ar_token_usage r))
    (tracked (snd (query_llm (priced_env (5 # 2) 10 1000000) "hi" None
                     (Some "o1") "openai" None []))) =
  [Some 40%Z].
Proof. split; reflexivity. Qed.

Lemma openai_record_reasoning (E : Env) (rt : option Z) (provider : string)
    (model : OptStr) (response : ChatCompletion) (w : World) :
  costs (snd (openai_record (report_reasoning rt E) provider model
                (time_start E) (with_reasoning rt response) w)) =
  costs (snd (openai_record E provider model (time_start E) response w)) /\
  map ar_cost
    (tracked (snd (openai_record (report_reasoning rt E) provider model
                     (time_start E) (with_reasoning rt response) w))) =
  map ar_cost
    (tracked (snd (openai_record E provider model (time_start E) response
                     w))).
Proof.
  unfold openai_record, openai_token_usage. run.
  destruct model as [m|]; [|now split].
  assert (Hrr : read_reasoning m (usage (with_reasoning rt response)) =
                match read_reasoning m (usage response) with
                | inl e => inl e
                | inr _ => inr (if startswith (lower m) "o" then rt else None)
                end).
  { unfold read_reasoning. cbn [with_reasoning usage reasoning_tokens].
    destruct (startswith (lower m) "o"); [|reflexivity].
    now destruct (reasoning_tokens (usage response)). }
  rewrite Hrr.
  destruct (read_reasoning m (usage response)) as [e|v]; [now split|].
  cbn [tu_prompt_tokens tu_completion_tokens with_reasoning usage
         prompt_tokens completion_tokens total_tokens reasoning_tokens
         choices report_reasoning calculate_openai_cost track_request
         time_end].
  destruct (calculate_openai_cost E _ _ _) as [e|cost]; [now split|].
  destruct (choices response) as [|text rest]; [now split|].
  do 2 destruct (track_request E _); now split.
Qed.

Lemma handler_keeps_accounts (o : Outcome OptStr) (w : World) :
  costs (snd (match o with
              | Ok a => (Ok a, w)
              | Raised e => query_llm_except e w
              end)) = costs w /\
  tracked (snd (match o with
                | Ok a => (Ok a, w)
                | Raised e => query_llm_except e w
                end)) = tracked w.
Proof. destruct o; now split. Qed.

Lemma query_llm_try_reasoning (E : Env) (rt : option Z) (prompt : string)
    (c : Client) (model : OptStr) (provider : string) (image_path : OptStr)
    (w : World) :
  costs (snd (query_llm_try (report_reasoning rt E) prompt c model provider
                image_path w)) =
  costs (snd (query_llm_try E prompt c model provider image_path w)) /\
  map ar_cost
    (tracked (snd (query_llm_try (report_reasoning rt E) prompt c model
                     provider image_path w))) =
  map ar_cost
    (tracked (snd (query_llm_try E prompt c model provider image_path w))).
Proof.
  unfold query_llm_try.
  destruct (str_in provider openai_style); [|now split].
  change (default_model (report_reasoning rt E)) with (default_model E).
  change (openai_kwargs (report_reasoning rt E)) with (openai_kwargs E).
  run.
  destruct (openai_kwargs E prompt (default_model E provider model) provider
              image_path w) as [[kwargs|e] w1]; [|now split].
  cbn [report_reasoning chat_completions_create time_start].
  destruct (chat_completions_create E c kwargs) as [e|response];
    [now split|].
  apply openai_record_reasoning.
Qed.

(** C4: the cost of a request depends on the prompt count, the completion
    count and the model only.  The cost in a record that reaches the
    tracker is the calculator's answer for these three values; the
    reasoning tokens a provider reports change neither the cost
    calculations asked for nor the costs recorded; and under the formula
    of the spec every completion token of the record, reasoning tokens
    included, is billed once, at the completion price. *)
Theorem cost_ignores_reasoning_tokens (E : Env) (prompt : string)
    (client : option Client) (model : OptStr) (provider : string)
    (image_path : OptStr) (w : World) :
  (forall r,
      tracked (snd (query_llm E prompt client model provider image_path w)) =
      r :: tracked w ->
      billed E r) /\
  (forall rt,
      costs (snd (query_llm (report_reasoning rt E) prompt client model
                    provider image_path w)) =
      costs (snd (query_llm E prompt client model provider image_path w)) /\
      map ar_cost
        (tracked (snd (query_llm (report_reasoning rt E) prompt client model
                         provider image_path w))) =
      map ar_cost
        (tracked (snd (query_llm E prompt client model provider image_path
                         w)))) /\
  (forall prompt_price completion_price unit_size r,
      (forall p c m,
          calculate_openai_cost E p c m =
          inr (spec_cost prompt_price completion_price unit_size p c)) ->
      str_in provider openai_style = true ->
      tracked (snd (query_llm E prompt client model provider image_path w)) =
      r :: tracked w ->
      ar_cost r =
      spec_cost prompt_price completion_price unit_size
        (tu_prompt_tokens (ar_token_usage r))
        (tu_completion_tokens (ar_token_usage r))).
Proof.
  assert (Hbilled : forall r,
             tracked (snd (query_llm E prompt client model provider
                             image_path w)) = r :: tracked w ->
             billed E r /\ ar_provider r = provider).
  { intros r Hr.
    pose proof (query_llm_ledger E prompt client model provider image_path w)
      as Hstep.
    apply (ledger_step_new _ _ _ _ _ r) in Hstep; [|exact Hr].
    unfold billed.
    inversion Hstep as [c kwargs response m' rt text cost Hs _ _ _ Hcost Hrec
                       | c msgs response text cost Hs _ _ Hcost Hrec];
      cbn [ar_provider ar_token_usage ar_model ar_cost tu_prompt_tokens
             tu_completion_tokens]; rewrite Hs; split;
      [exact Hcost | reflexivity | exact Hcost | reflexivity]. }
  split; [|split].
  - intros r Hr. apply (Hbilled r Hr).
  - intros rt. unfold query_llm. unfold bind.
    change (get_client (report_reasoning rt E)) with (get_client E).
    destruct (get_client E client provider w) as [[c|e] w0]; [|now split].
    unfold try_except.
    destruct (query_llm_try_reasoning E rt prompt c model provider image_path
                w0) as [Hc Ht].
    destruct (query_llm_try (report_reasoning rt E) prompt c model provider
                image_path w0) as [o1 w1].
    destruct (query_llm_try E prompt c model provider image_path w0)
      as [o2 w2].
    simpl in Hc, Ht.
    destruct (handler_keeps_accounts o1 w1) as [Hc1 Ht1].
    destruct (handler_keeps_accounts o2 w2) as [Hc2 Ht2].
    rewrite Hc1, Hc2, Ht1, Ht2. now split.
  - intros pp cp unit_size r Hcalc Hs Hr.
    destruct (Hbilled r Hr) as [Hb Hp]. unfold billed in Hb.
    rewrite Hp, Hs, Hcalc in Hb. now injection Hb.
Qed.

Lemma cost_ignores_reasoning_tokens_witness :
  billed happy_env
    {| ar_content := Some "hello";
       ar_token_usage := mkTokenUsage 12 100 112 (Some 40%Z);
       ar_cost := 1 # 100;
       ar_thinking_time := 12 - 10;
       ar_provider := "openai";
       ar_model := Some "o1" |} /\
  spec_cost (5 # 2) 10 1000000 12 100 =
  spec_cost (5 # 2) 10 1000000
    (tu_prompt_tokens (mkTokenUsage 12 100 112 (Some 40%Z)))
    (tu_completion_tokens (mkTokenUsage 12 100 112 (Some 40%Z))).
Proof.
  split.
  - apply (proj1 (cost_ignores_reasoning_tokens happy_env "hi" None
                    (Some "o1") "openai" None [])).
    reflexivity.
  - apply (proj2 (proj2 (cost_ignores_reasoning_tokens
                           (priced_env (5 # 2) 10 1000000) "hi" None
                           (Some "o1") "openai" None []))
             (5 # 2) 10 1000000%Z
             {| ar_content := Some "hello";
                ar_token_usage := mkTokenUsage 12 100 112 (Some 40%Z);
                ar_cost := spec_cost (5 # 2) 10 1000000 12 100;
                ar_thinking_time := 12 - 10;
                ar_provider := "openai";
                ar_model := Some "o1" |});
      reflexivity.
Defined.

(** ** Reading the environment files *)

Example run_env_keys :
  env_keys ["# secrets = here"; " OPENAI_API_KEY = sk-1=2"; "no key here";
            "DEBUG=1"; " # indented = comment"] =
  ["OPENAI_API_KEY"; "DEBUG"; "# indented"].
Proof. reflexivity. Qed.

Example run_load_environment :
  load_environment sample_files [] =
  (Ok tt,
   [LdStderr "Checking /work/.env.example";
    LdStderr "Keys loaded from .env: OPENAI_API_KEY,DEBUG";
    LdOpen ".env";
    LdStderr "Loaded environment variables from .env";
    LdDotenv ".env";
    LdStderr "Found .env, loading variables...";
    LdStderr "Checking /work/.env";
    LdStderr "Checking /work/.env.local";
    LdStderr "Looking for environment files: .env.local,.env,.env.example";
    LdStderr "Current working directory: /work/."]).
Proof. reflexivity. Qed.

Lemma prefix_empty (s : string) : String.prefix "" s = true.
Proof. now destruct s. Qed.

Lemma before_eq_no_eq (line : string) :
  contains_char "=" (before_eq line) = false.
Proof.
  induction line as [|a rest IH]; [reflexivity|]. simpl.
  destruct (Ascii.eqb a "=") eqn:Ha; [reflexivity|]. simpl. now rewrite Ha.
Qed.

Lemma before_eq_app (k v : string) :
  contains_char "=" k = false ->
  before_eq (k ++ String "=" v) = k.
Proof.
  induction k as [|a k IH]; [reflexivity|]. simpl.
  destruct (Ascii.eqb a "="); [discriminate|]. intros H. now rewrite IH.
Qed.

Lemma contains_char_app (c : ascii) (k v : string) :
  contains_char c (k ++ String c v) = true.
Proof.
  induction k as [|a k IH]; simpl.
  - now rewrite Ascii.eqb_refl.
  - now destruct (Ascii.eqb a c).
Qed.

Lemma lstrip_keeps_out (c : ascii) (s : string) :
  contains_char c s = false -> contains_char c (lstrip s) = false.
Proof.
  induction s as [|a rest IH]; [reflexivity|]. simpl.
  destruct (Ascii.eqb a c) eqn:Ha; [discriminate|]. intros H.
  destruct (is_space a); [auto|]. simpl. now rewrite Ha.
Qed.

Lemma rstrip_keeps_out (c : ascii) (s : string) :
  contains_char c s = false -> contains_char c (rstrip s) = false.
Proof.
  induction s as [|a rest IH]; [reflexivity|]. simpl.
  destruct (Ascii.eqb a c) eqn:Ha; [discriminate|]. intros H.
  specialize (IH H). destruct (rstrip rest) as [|b kept].
  - destruct (is_space a); [reflexivity|]. simpl. now rewrite Ha.
  - simpl in *. now rewrite Ha.
Qed.

Lemma lstrip_first (s : string) (c : ascii) :
  first_char (lstrip s) = Some c -> is_space c = false.
Proof.
  induction s as [|a rest IH]; [discriminate|]. simpl.
  destruct (is_space a) eqn:Ha; [exact IH|]. simpl. congruence.
Qed.

Lemma rstrip_first (s : string) (c : ascii) :
  first_char (rstrip s) = Some c -> first_char s = Some c.
Proof.
  destruct s as [|a rest]; [discriminate|]. simpl.
  destruct (rstrip rest); [destruct (is_space a); [discriminate|]|];
    simpl; congruence.
Qed.

Lemma rstrip_last (s : string) (c : ascii) :
  last_char (rstrip s) = Some c -> is_space c = false.
Proof.
  induction s as [|a rest IH]; [discriminate|]. simpl.
  destruct (rstrip rest) as [|b kept].
  - destruct (is_space a) eqn:Ha; [discriminate|]. simpl. congruence.
  - exact IH.
Qed.

(** The keys are taken line by line: of a quoted value that runs over
    several lines, a later line that holds an [=] is reported as a key. *)
Example run_env_keys_multiline :
  env_keys ["PRIVATE_KEY='first"; "c2VjcmV0LXBhcnQ=="; "last'"] =
  ["PRIVATE_KEY"; "c2VjcmV0LXBhcnQ"].
Proof. reflexivity. Qed.

(** X1: every key that [load_environment] reports is the text before the
    first [=] of a line that has one and does not start with [#], with the
    surrounding ASCII blanks removed: it holds no [=] and neither starts
    nor ends with a blank. *)
Theorem env_keys_well_formed (lines : list string) (k : string) :
  In k (env_keys lines) ->
  contains_char "=" k = false /\
  (forall c, first_char k = Some c -> is_space c = false) /\
  (forall c, last_char k = Some c -> is_space c = false) /\
  exists line,
    In line lines /\ contains_char "=" line = true /\
    startswith line "#" = false /\ k = strip (before_eq line).
Proof.
  unfold env_keys. rewrite in_map_iff.
  intros (line & <- & Hin). apply filter_In in Hin.
  destruct Hin as [Hin Hcond]. apply andb_true_iff in Hcond.
  destruct Hcond as [Heq Hhash]. apply negb_true_iff in Hhash.
  repeat split.
  - unfold strip. apply rstrip_keeps_out, lstrip_keeps_out, before_eq_no_eq.
  - intros c Hc. unfold strip in Hc. apply rstrip_first in Hc.
    now apply lstrip_first in Hc.
  - intros c Hc. unfold strip in Hc. now apply rstrip_last in Hc.
  - now exists line.
Qed.

Lemma env_keys_well_formed_witness :
  contains_char "=" "OPENAI_API_KEY" = false /\
  (forall c, first_char "OPENAI_API_KEY" = Some c -> is_space c = false) /\
  (forall c, last_char "OPENAI_API_KEY" = Some c -> is_space c = false) /\
  exists line,
    In line ["# secrets = here"; " OPENAI_API_KEY = sk-1=2"] /\
    contains_char "=" line = true /\
    startswith line "#" = false /\
    "OPENAI_API_KEY" = strip (before_eq line).
Proof.
  apply (env_keys_well_formed
           ["# secrets = here"; " OPENAI_API_KEY = sk-1=2"] "OPENAI_API_KEY").
  simpl. now left.
Defined.

(** X2: a line [k=v], where [k] holds no [=], does not start with [#] and
    has no blanks around it, is reported as [k], whatever [v] is; a line
    that starts with [#] or holds no [=] is not reported. *)
Theorem env_keys_by_line (line : string) (rest : list string) :
  (forall k v,
      line = (k ++ String "=" v)%string ->
      contains_char "=" k = false ->
      startswith k "#" = false ->
      strip k = k ->
      env_keys (line :: rest) = k :: env_keys rest) /\
  (startswith line "#" = true \/ contains_char "=" line = false ->
   env_keys (line :: rest) = env_keys rest).
Proof.
  split.
  - intros k v -> Hk Hhash Hstrip. unfold env_keys. simpl.
    rewrite contains_char_app.
    assert (Hh : startswith (k ++ String "=" v) "#" = false).
    { unfold startswith in *. destruct k as [|a k]; [reflexivity|].
      cbn [String.prefix String.append] in *.
      destruct (ascii_dec "#" a); [|reflexivity].
      now rewrite prefix_empty in Hhash. }
    rewrite Hh. simpl. now rewrite before_eq_app, Hstrip.
  - intros [H|H]; unfold env_keys; simpl; rewrite H;
      [now rewrite andb_false_r | reflexivity].
Qed.

Lemma env_keys_by_line_witness :
  env_keys ["DEBUG=a=b"; "# x=1"; "no key here"] =
  "DEBUG" :: env_keys ["# x=1"; "no key here"] /\
  env_keys ["# x=1"; "no key here"] = env_keys ["no key here"] /\
  env_keys ["no key here"] = env_keys [].
Proof.
  split; [|split].
  - apply (proj1 (env_keys_by_line "DEBUG=a=b" ["# x=1"; "no key here"])
             "DEBUG" "a=b"); reflexivity.
  - apply (proj2 (env_keys_by_line "# x=1" ["no key here"])).
    left. reflexivity.
  - apply (proj2 (env_keys_by_line "no key here" [])). right. reflexivity.
Defined.

(** X3: when [load_environment] returns, [load_dotenv] has been called for
    exactly the files among [.env.local], [.env], [.env.example] that
    exist, each once and in that order (it does not stop at the first one
    found), and for each of them the keys of its lines are reported on
    standard error. *)
Theorem load_environment_loads_existing (F : Files) (log : list LoadEvent) :
  fst (load_environment F log) = Ok tt ->
  dotenv_calls (snd (load_environment F log)) =
  rev (filter (exists_file F) env_files) ++ dotenv_calls log /\
  (forall f,
      In f env_files -> exists_file F f = true ->
      exists lines,
        open_lines F f = inr lines /\
        In (LdStderr ("Keys loaded from " ++ f ++ ": "
                        ++ repr F (env_keys lines)))
           (snd (load_environment F log))).
Proof.
  unfold load_environment, env_files, load_each, load_one. simpl filter.
  destruct (exists_file F ".env.local") eqn:E1;
    [destruct (load_dotenv F ".env.local");
     [discriminate|
      destruct (open_lines F ".env.local") as [?|l1] eqn:O1;
      [discriminate|]]|];
    (destruct (exists_file F ".env") eqn:E2;
     [destruct (load_dotenv F ".env");
      [discriminate|
       destruct (open_lines F ".env") as [?|l2] eqn:O2; [discriminate|]]|]);
    (destruct (exists_file F ".env.example") eqn:E3;
     [destruct (load_dotenv F ".env.example");
      [discriminate|
       destruct (open_lines F ".env.example") as [?|l3] eqn:O3;
       [discriminate|]]|]);
    intros _; (split; [reflexivity|]);
    intros f [<-|[<-|[<-|[]]]] Hf; try congruence;
    eexists; (split; [eassumption|]); cbn [snd negb]; simpl; tauto.
Qed.

Lemma load_environment_loads_existing_witness :
  dotenv_calls (snd (load_environment sample_files [])) = [".env"] /\
  (forall f,
      In f env_files -> exists_file sample_files f = true ->
      exists lines,
        open_lines sample_files f = inr lines /\
        In (LdStderr ("Keys loaded from " ++ f ++ ": "
                        ++ repr sample_files (env_keys lines)))
           (snd (load_environment sample_files []))).
Proof.
  apply (load_environment_loads_existing sample_files []). reflexivity.
Defined.

(** X4: started on an empty log, [load_environment] prints the warning
    that no environment file was found exactly when none of the three
    files exists. *)
Theorem load_environment_warns_iff_none (F : Files) :
  warned (snd (load_environment F [])) =
  negb (existsb (exists_file F) env_files).
Proof.
  unfold load_environment, env_files, load_each, load_one. simpl existsb.
  destruct (exists_file F ".env.local");
    [destruct (load_dotenv F ".env.local");
     [reflexivity|destruct (open_lines F ".env.local")]|];
    try reflexivity;
    (destruct (exists_file F ".env");
     [destruct (load_dotenv F ".env");
      [reflexivity|destruct (open_lines F ".env")]|]);
    try reflexivity;
    (destruct (exists_file F ".env.example");
     [destruct (load_dotenv F ".env.example");
      [reflexivity|destruct (open_lines F ".env.example")]|]);
    reflexivity.
Qed.

(** ** The shape of a query *)

Lemma query_llm_from_call (E : Env) (prompt : string)
    (client : option Client) (model : OptStr) (provider : string)
    (image_path : OptStr) (w w0 wc : World) (c : Client)
    (a : Exception + ApiAnswer) :
  get_client E client provider w = (Ok c, w0) ->
  api_call E c prompt (default_model E provider model) provider image_path
    w0 wc a ->
  query_llm E prompt client model provider image_path w =
  handled (after_call E provider (default_model E provider model) a wc).
Proof.
  intros Hg Hcall. unfold query_llm. unfold bind at 1. rewrite Hg.
  unfold try_except, handled, after_call.
  rewrite (query_llm_try_from_call _ _ _ _ _ _ _ _ _ Hcall).
  destruct a as [e | [response | response | response]]; reflexivity.
Qed.

(** Before the provider call the [try] block either fails, having sent,
    billed and recorded nothing, or reaches the call; for a provider
    outside the dispatch it ends at once with [None]. *)
Lemma query_llm_try_cases (E : Env) (prompt : string) (c : Client)
    (model : OptStr) (provider : string) (image_path : OptStr) (w : World) :
  (exists e w1,
      query_llm_try E prompt c model provider image_path w = (Raised e, w1) /\
      tracked w1 = tracked w /\ costs w1 = costs w /\
      network w1 = network w) \/
  (exists wc a,
      api_call E c prompt (default_model E provider model) provider
        image_path w wc a) \/
  (str_in provider supported = false /\
   query_llm_try E prompt c model provider image_path w = (Ok None, w)).
Proof.
  unfold query_llm_try.
  destruct (str_in provider openai_style) eqn:Hs.
  - destruct (quiet_openai_kwargs E prompt (default_model E provider model)
                provider image_path w) as (Ht & Hc & Hn).
    unfold bind at 1.
    destruct (openai_kwargs E prompt (default_model E provider model)
                provider image_path w) as [[kwargs|e] w1] eqn:Hk.
    + right. left. eexists. eexists. eapply CallChat; eassumption.
    + left. now exists e, w1.
  - destruct (provider =? "anthropic") eqn:Ha.
    + apply String.eqb_eq in Ha.
      destruct (quiet_anthropic_messages E prompt image_path w)
        as (Ht & Hc & Hn).
      unfold bind at 1.
      destruct (anthropic_messages E prompt image_path w)
        as [[messages|e] w1] eqn:Hm.
      * right. left. eexists. eexists. eapply CallMessages; eassumption.
      * left. now exists e, w1.
    + destruct (provider =? "gemini") eqn:Hg.
      * apply String.eqb_eq in Hg. run.
        destruct (GenerativeModel E c (default_model E provider model))
          as [e|] eqn:Hgm.
        -- left. now exists e, w.
        -- right. left. eexists. eexists. eapply CallGemini; eassumption.
      * right. right. split; [|reflexivity].
        rewrite str_in_openai_style in Hs. unfold str_in, supported. simpl.
        rewrite Ha, Hg.
        destruct (provider =? "openai"); [discriminate|].
        destruct (provider =? "local"); [discriminate|].
        destruct (provider =? "deepseek"); [discriminate|].
        destruct (provider =? "azure"); [discriminate|]. reflexivity.
Qed.

(** A provider call appears in the log as one request. *)
Lemma api_call_network (E : Env) (c : Client) (prompt : string)
    (model : OptStr) (provider : string) (image_path : OptStr)
    (w wc : World) (a : Exception + ApiAnswer) :
  api_call E c prompt model provider image_path w wc a ->
  exists e w1, wc = e :: w1 /\ is_network e = true /\ network w1 = network w.
Proof.
  intros [kwargs w1 Hs Hk | messages w1 Hs Hp Hm | Hp Hg].
  - destruct (quiet_openai_kwargs E prompt model provider image_path w)
      as (_ & _ & Hn). rewrite Hk in Hn. eexists. eexists. now split.
  - destruct (quiet_anthropic_messages E prompt image_path w)
      as (_ & _ & Hn). rewrite Hm in Hn. eexists. eexists. now split.
  - eexists. eexists. now split.
Qed.

(** When the accounting of the OpenAI-style branch returns, it returns
    the content of the first choice, text or [None], after one cost
    calculation and one accepted record with that content. *)
Lemma openai_record_ok (E : Env) (provider : string) (model : OptStr)
    (response : ChatCompletion) (w w' : World) (r : OptStr) :
  openai_record E provider model (time_start E) response w = (Ok r, w') ->
  exists rec,
    ar_content rec = r /\ ar_provider rec = provider /\
    ar_model rec = model /\ track_request E rec = None /\
    w' = EvTrack rec
         :: EvCost OpenAICost (tu_prompt_tokens (ar_token_usage rec))
              (tu_completion_tokens (ar_token_usage rec)) (ar_model rec)
         :: w.
Proof.
  unfold openai_record, openai_token_usage. run.
  destruct model as [m|]; [|discriminate].
  destruct (read_reasoning m (usage response)); [discriminate|].
  cbn [tu_prompt_tokens tu_completion_tokens].
  destruct (calculate_openai_cost E _ _ _) as [e|cost]; [discriminate|].
  destruct (choices response) as [|t rest]; [discriminate|].
  destruct (track_request E _) eqn:Hk; [discriminate|].
  intros H. injection H as <- <-. eexists.
  repeat split; [| | | exact Hk |]; reflexivity.
Qed.

Lemma anthropic_record_ok (E : Env) (provider : string) (model : OptStr)
    (response : AnthropicMessage) (w w' : World) (r : OptStr) :
  anthropic_record E provider model (time_start E) response w = (Ok r, w') ->
  exists t rec,
    r = Some t /\ ar_content rec = Some t /\ ar_provider rec = provider /\
    ar_model rec = model /\ track_request E rec = None /\
    w' = EvTrack rec
         :: EvCost ClaudeCost (tu_prompt_tokens (ar_token_usage rec))
              (tu_completion_tokens (ar_token_usage rec)) (ar_model rec)
         :: w.
Proof.
  unfold anthropic_record. run.
  cbn [anthropic_token_usage tu_prompt_tokens tu_completion_tokens].
  destruct (calculate_claude_cost E _ _ _) as [e|cost]; [discriminate|].
  destruct (content_text response) as [|t rest]; [discriminate|].
  destruct (track_request E _) eqn:Hk; [discriminate|].
  intros H. injection H as <- <-. eexists. eexists.
  repeat split; [| | | exact Hk |]; reflexivity.
Qed.

(** Whatever its outcome, the accounting leaves the ledger alone, or
    hands over one record together with the one cost calculation for
    that record's counts. *)
Lemma openai_record_accounts (E : Env) (provider : string) (model : OptStr)
    (start_time : Q) (response : ChatCompletion) (w : World) :
  let w' := snd (openai_record E provider model start_time response w) in
  tracked w' = tracked w \/
  exists rec f,
    tracked w' = rec :: tracked w /\
    costs w' = EvCost f (tu_prompt_tokens (ar_token_usage rec))
                 (tu_completion_tokens (ar_token_usage rec)) (ar_model rec)
               :: costs w.
Proof.
  unfold openai_record, openai_token_usage. run.
  destruct model as [m|]; [|now left].
  destruct (read_reasoning m (usage response)); [now left|].
  cbn [tu_prompt_tokens tu_completion_tokens].
  destruct (calculate_openai_cost E _ _ _) as [e|cost]; [now left|].
  destruct (choices response) as [|t rest]; [now left|].
  right. eexists. exists OpenAICost.
  destruct (track_request E _); split; reflexivity.
Qed.

Lemma anthropic_record_accounts (E : Env) (provider : string)
    (model : OptStr) (start_time : Q) (response : AnthropicMessage)
    (w : World) :
  let w' := snd (anthropic_record E provider model start_time response w) in
  tracked w' = tracked w \/
  exists rec f,
    tracked w' = rec :: tracked w /\
    costs w' = EvCost f (tu_prompt_tokens (ar_token_usage rec))
                 (tu_completion_tokens (ar_token_usage rec)) (ar_model rec)
               :: costs w.
Proof.
  unfold anthropic_record. run.
  cbn [anthropic_token_usage tu_prompt_tokens tu_completion_tokens].
  destruct (calculate_claude_cost E _ _ _) as [e|cost]; [now left|].
  destruct (content_text response) as [|t rest]; [now left|].
  right. eexists. exists ClaudeCost.
  destruct (track_request E _); split; reflexivity.
Qed.

Lemma handled_views (r : Outcome OptStr * World) :
  tracked (snd (handled r)) = tracked (snd r) /\
  costs (snd (handled r)) = costs (snd r) /\
  network (snd (handled r)) = network (snd r).
Proof. destruct r as [[a|e] w]; now repeat split. Qed.

Lemma cons_neq_self {A} (x : A) (l : list A) : l <> x :: l.
Proof.
  intros H. apply (f_equal (@length A)) in H. simpl in H. lia.
Qed.

Lemma model_eqb_eq (model : OptStr) (s : string) :
  model_eqb model s = true <-> model = Some s.
Proof.
  destruct model as [m|]; simpl.
  - rewrite String.eqb_eq. split; congruence.
  - split; discriminate.
Qed.

(** The request of the OpenAI-style branch, key by key. *)
Lemma openai_kwargs_shape (E : Env) (prompt : string) (model : OptStr)
    (provider : string) (image_path : OptStr) (w w1 : World)
    (kwargs : Dict) :
  openai_kwargs E prompt model provider image_path w = (Ok kwargs, w1) ->
  dict_get "model" kwargs = Some (KwModel model) /\
  (exists messages,
      dict_get "messages" kwargs = Some (KwMessages messages) /\
      first_text messages = Some prompt) /\
  (model = Some "o1" ->
   dict_get "temperature" kwargs = None /\
   dict_get "response_format" kwargs = Some (KwType "text") /\
   dict_get "reasoning_effort" kwargs = Some (KwStr "low")) /\
  (model <> Some "o1" ->
   dict_get "temperature" kwargs = Some (KwFloat (7 # 10)) /\
   dict_get "response_format" kwargs = None /\
   dict_get "reasoning_effort" kwargs = None).
Proof.
  unfold openai_kwargs. unfold bind at 1.
  set (plain := append_content0 (TextPart prompt) [mkMessage "user" []]).
  assert (Hshape : forall messages,
             first_text messages = Some prompt ->
             forall kw,
               kw = (if model_eqb model "o1"
                     then dict_del "temperature"
                            (dict_set "reasoning_effort" (KwStr "low")
                               (dict_set "response_format" (KwType "text")
                                  [("model", KwModel model);
                                   ("messages", KwMessages messages);
                                   ("temperature", KwFloat (7 # 10))]))
                     else [("model", KwModel model);
                           ("messages", KwMessages messages);
                           ("temperature", KwFloat (7 # 10))]) ->
             dict_get "model" kw = Some (KwModel model) /\
             (exists ms,
                 dict_get "messages" kw = Some (KwMessages ms) /\
                 first_text ms = Some prompt) /\
             (model = Some "o1" ->
              dict_get "temperature" kw = None /\
              dict_get "response_format" kw = Some (KwType "text") /\
              dict_get "reasoning_effort" kw = Some (KwStr "low")) /\
             (model <> Some "o1" ->
              dict_get "temperature" kw = Some (KwFloat (7 # 10)) /\
              dict_get "response_format" kw = None /\
              dict_get "reasoning_effort" kw = None)).
  { intros messages Hm kw ->.
    destruct (model_eqb model "o1") eqn:Ho.
    - apply model_eqb_eq in Ho. subst model.
      split; [reflexivity|].
      split; [exists messages; split; [reflexivity | exact Hm]|].
      split; [intros _; repeat split; reflexivity | intros H; congruence].
    - assert (Hne : model <> Some "o1").
      { intros H. apply model_eqb_eq in H. congruence. }
      split; [reflexivity|].
      split; [exists messages; split; [reflexivity | exact Hm]|].
      split; [intros H; contradiction | intros _; repeat split; reflexivity]. }
  destruct image_path as [path|].
  - destruct (truthy (Some path)).
    + destruct (provider =? "openai").
      * unfold bind at 1.
        destruct (encode_image_file E path w) as [[[enc mime]|e] w2];
          [|discriminate].
        run. intros H. injection H as <- <-.
        eapply Hshape; [|reflexivity]. reflexivity.
      * run. intros H. injection H as <- <-.
        eapply Hshape; [|reflexivity]. reflexivity.
    + run. intros H. injection H as <- <-.
      eapply Hshape; [|reflexivity]. reflexivity.
  - run. intros H. injection H as <- <-.
    eapply Hshape; [|reflexivity]. reflexivity.
Qed.

Lemma anthropic_messages_shape (E : Env) (prompt : string)
    (image_path : OptStr) (w w1 : World) (messages : list Message) :
  anthropic_messages E prompt image_path w = (Ok messages, w1) ->
  first_text messages = Some prompt.
Proof.
  unfold anthropic_messages.
  destruct image_path as [path|]; [destruct (truthy (Some path))|].
  - unfold bind.
    destruct (encode_image_file E path w) as [[[enc mime]|e] w2];
      [|discriminate].
    run. intros H. now injection H as <- <-.
  - run. intros H. now injection H as <- <-.
  - run. intros H. now injection H as <- <-.
Qed.

(** The request of a provider call carries the prompt and the model in
    force. *)
Lemma api_call_request (E : Env) (c : Client) (prompt : string)
    (model : OptStr) (provider : string) (image_path : OptStr)
    (w wc : World) (a : Exception + ApiAnswer) :
  api_call E c prompt model provider image_path w wc a ->
  exists e w1,
    wc = e :: w1 /\ request_prompt e = Some prompt /\
    request_model e = Some model.
Proof.
  intros [kwargs w1 Hs Hk | messages w1 Hs Hp Hm | Hp Hg].
  - destruct (openai_kwargs_shape _ _ _ _ _ _ _ _ Hk)
      as (Hmodel & (ms & Hms & Hft) & _).
    eexists. eexists. split; [reflexivity|]. simpl.
    now rewrite Hms, Hmodel.
  - apply anthropic_messages_shape in Hm.
    eexists. eexists. split; [reflexivity|]. now simpl.
  - eexists. eexists. split; [reflexivity|]. now simpl.
Qed.

(** The requests of one query: none, or the one of its provider call. *)
Lemma query_llm_network (E : Env) (prompt : string)
    (client : option Client) (model : OptStr) (provider : string)
    (image_path : OptStr) (w : World) :
  network (snd (query_llm E prompt client model provider image_path w)) =
  network w \/
  exists c w0 a e w1,
    get_client E client provider w = (Ok c, w0) /\
    api_call E c prompt (default_model E provider model) provider image_path
      w0 (e :: w1) a /\
    network (snd (query_llm E prompt client model provider image_path w)) =
    e :: network w.
Proof.
  destruct (quiet_get_client E client provider w) as (_ & _ & Hn).
  destruct (get_client E client provider w) as [[c|e] w0] eqn:Hg;
    simpl in Hn.
  - destruct (query_llm_try_cases E prompt c model provider image_path w0)
      as [(e & w1 & Hr & _ & _ & Hn1) | [(wc & a & Hcall) | (_ & Hr)]].
    + left. unfold query_llm. unfold bind at 1. rewrite Hg.
      unfold try_except. rewrite Hr. simpl. congruence.
    + right.
      destruct (api_call_network _ _ _ _ _ _ _ _ _ Hcall)
        as (e & w1 & -> & He & Hn1).
      exists c, w0, a, e, w1. split; [reflexivity|]. split; [exact Hcall|].
      rewrite (query_llm_network_after_call _ _ _ _ _ _ _ _ _ _ _ Hg Hcall).
      unfold network in *. simpl. rewrite He. congruence.
    + left. unfold query_llm. unfold bind at 1. rewrite Hg.
      unfold try_except. rewrite Hr. exact Hn.
  - left. unfold query_llm. unfold bind at 1. rewrite Hg. exact Hn.
Qed.

(** ** What a caller of query_llm can rely on *)

Lemma create_llm_client_raises (E : Env) (provider : string) (w w' : World)
    (e : Exception) :
  create_llm_client E provider w = (Raised e, w') ->
  w' = w /\ exists msg, e = ValueError msg.
Proof.
  unfold create_llm_client.
  repeat match goal with
    | |- context [if ?b then _ else _] => destruct b
    end; run; intros H; try discriminate H;
    injection H as <- <-; split; eauto.
Qed.

(** X5: [query_llm] raises only when it is called without a client and
    [create_llm_client] raises; what escapes is then that [ValueError],
    with nothing sent or recorded.  Every other failure is caught. *)
Theorem query_llm_raises_only_config (E : Env) (prompt : string)
    (client : option Client) (model : OptStr) (provider : string)
    (image_path : OptStr) (w w' : World) (e : Exception) :
  query_llm E prompt client model provider image_path w = (Raised e, w') <->
  client = None /\ create_llm_client E provider w = (Raised e, w') /\
  w' = w /\ exists msg, e = ValueError msg.
Proof.
  split.
  - unfold query_llm. unfold bind at 1.
    destruct client as [c|]; simpl.
    + run. unfold query_llm_except. run.
      destruct (query_llm_try E prompt c model provider image_path w)
        as [[r|e0] w1]; discriminate.
    + destruct (create_llm_client E provider w) as [[c|e0] w0] eqn:Hc.
      * unfold try_except, query_llm_except. run.
        destruct (query_llm_try E prompt c model provider image_path w0)
          as [[r|e1] w1]; discriminate.
      * intros H. injection H as <- <-. split; [reflexivity|].
        split; [reflexivity|]. now apply create_llm_client_raises in Hc.
  - intros (-> & Hc & _). unfold query_llm. unfold bind at 1. simpl.
    now rewrite Hc.
Qed.

Lemma query_llm_raises_only_config_witness :
  query_llm (const_env no_keys (inr chat_hello) (inr claude_hello)
               (inr {| text := inr "hello" |}) (inr (1 # 100)) None)
    "hi" None None "deepseek" None [EvStdout "earlier"] =
  (Raised (ValueError "DEEPSEEK_API_KEY not found in environment variables"),
   [EvStdout "earlier"]).
Proof.
  apply (proj2 (query_llm_raises_only_config _ "hi" None None "deepseek" None
                  [EvStdout "earlier"] [EvStdout "earlier"] _)).
  repeat split. now eexists.
Defined.

Lemma api_call_chat (E : Env) (c : Client) (prompt : string)
    (model : OptStr) (provider : string) (image_path : OptStr)
    (w wc : World) (response : ChatCompletion) :
  api_call E c prompt model provider image_path w wc
    (inr (ChatAnswer response)) ->
  str_in provider openai_style = true.
Proof.
  intros H.
  inversion H as [kwargs w1 Hs Hk Hw Ha | messages w1 Hs Hp Hm Hw Ha
                 | Hp Hg Hw Ha].
  - exact Hs.
  - destruct (messages_create E c model 1000 messages); discriminate.
  - destruct (generate_content E c model prompt); discriminate.
Qed.

(** A message without text: the call succeeds, the answer is tracked, and
    the caller gets [None] with nothing on standard error. *)
Example run_silent_none :
  query_llm silent_env "hi" None None "openai" None [] =
  (Ok None,
   [EvTrack {| ar_content := None;
               ar_token_usage := mkTokenUsage 12 0 12 None;
               ar_cost := 1 # 100;
               ar_thinking_time := 12 - 10;
               ar_provider := "openai";
               ar_model := Some "gpt-4o" |};
    EvCost OpenAICost 12 0 (Some "gpt-4o");
    EvChatCreate (OpenAI "sk-test" None)
      [("model", KwModel (Some "gpt-4o"));
       ("messages", KwMessages [mkMessage "user" [TextPart "hi"]]);
       ("temperature", KwFloat (7 # 10))]]).
Proof. reflexivity. Qed.

(** X6: for a supported provider [None] comes back in two ways only.
    Either the last thing [query_llm] did was to print the line
    [Error querying LLM: ...] with the text of the exception on standard
    error; or the provider is an OpenAI-style one, the content of its
    message was [None], and the last thing [query_llm] did was to hand the
    record with that empty content to [track_request], which accepted
    it.  For Anthropic and Gemini, [None] is never silent. *)
Theorem none_is_reported (E : Env) (prompt : string)
    (client : option Client) (model : OptStr) (provider : string)
    (image_path : OptStr) (w w' : World) :
  str_in provider supported = true ->
  query_llm E prompt client model provider image_path w = (Ok None, w') ->
  (exists e w'', w' = EvStderr ("Error querying LLM: " ++ str e) :: w'') \/
  (str_in provider openai_style = true /\
   exists rec w'',
     w' = EvTrack rec :: w'' /\ ar_content rec = None /\
     track_request E rec = None).
Proof.
  intros Hsup.
  destruct (get_client E client provider w) as [[c|e] w0] eqn:Hg.
  - destruct (query_llm_try_cases E prompt c model provider image_path w0)
      as [(e & w1 & Hr & _) | [(wc & a & Hcall) | (Hno & _)]].
    + unfold query_llm. unfold bind at 1. rewrite Hg.
      unfold try_except. rewrite Hr. unfold query_llm_except. run.
      intros H. injection H as <-. left. eexists; eexists; reflexivity.
    + rewrite (query_llm_from_call _ _ _ _ _ _ _ _ _ _ _ Hg Hcall).
      unfold handled, after_call, query_llm_except. run.
      destruct a as [e | [response | response | response]].
      * intros H. injection H as <-. left. eexists; eexists; reflexivity.
      * destruct (openai_record E provider _ _ response wc)
          as [[r|e] w2] eqn:Hrec.
        -- apply openai_record_ok in Hrec.
           destruct Hrec as (rec & Hc & _ & _ & Hk & ->).
           intros H. injection H as -> <-. right.
           split; [exact (api_call_chat _ _ _ _ _ _ _ _ _ Hcall)|].
           exists rec. eexists. now repeat split.
        -- intros H. injection H as <-. left.
           eexists; eexists; reflexivity.
      * destruct (anthropic_record E provider _ _ response wc)
          as [[r|e] w2] eqn:Hrec.
        -- apply anthropic_record_ok in Hrec.
           destruct Hrec as (t & rec & -> & _). discriminate.
        -- intros H. injection H as <-. left.
           eexists; eexists; reflexivity.
      * destruct (text response) as [e|t]; [|discriminate].
        intros H. injection H as <-. left. eexists; eexists; reflexivity.
    + congruence.
  - unfold query_llm. unfold bind at 1. rewrite Hg. discriminate.
Qed.

Lemma none_is_reported_witness :
  ((exists e w'',
       snd (query_llm cost_fails_env "hi" None None "openai" None []) =
       EvStderr ("Error querying LLM: " ++ str e) :: w'') \/
   (str_in "openai" openai_style = true /\
    exists rec w'',
      snd (query_llm cost_fails_env "hi" None None "openai" None []) =
      EvTrack rec :: w'' /\ ar_content rec = None /\
      track_request cost_fails_env rec = None)) /\
  ((exists e w'',
       snd (query_llm silent_env "hi" None None "openai" None []) =
       EvStderr ("Error querying LLM: " ++ str e) :: w'') \/
   (str_in "openai" openai_style = true /\
    exists rec w'',
      snd (query_llm silent_env "hi" None None "openai" None []) =
      EvTrack rec :: w'' /\ ar_content rec = None /\
      track_request silent_env rec = None)).
Proof.
  split.
  - apply (none_is_reported cost_fails_env "hi" None None "openai" None []);
      reflexivity.
  - apply (none_is_reported silent_env "hi" None None "openai" None []);
      reflexivity.
Defined.

(** X7: for the OpenAI-style providers and for Anthropic, a text comes
    back only after a record with that text as its content, the provider
    and the model in force has been handed to [track_request] and
    accepted: no answer of these providers is returned unaccounted. *)
Theorem returned_text_is_recorded (E : Env) (prompt : string)
    (client : option Client) (model : OptStr) (provider : string)
    (image_path : OptStr) (w w' : World) (t : string) :
  str_in provider openai_style = true \/ provider = "anthropic" ->
  query_llm E prompt client model provider image_path w = (Ok (Some t), w') ->
  exists rec w'',
    w' = EvTrack rec :: w'' /\
    tracked w' = rec :: tracked w /\
    ar_content rec = Some t /\ ar_provider rec = provider /\
    ar_model rec = default_model E provider model /\
    track_request E rec = None.
Proof.
  intros Hp.
  destruct (quiet_get_client E client provider w) as (Ht & _).
  destruct (get_client E client provider w) as [[c|e] w0] eqn:Hg;
    simpl in Ht.
  - destruct (query_llm_try_cases E prompt c model provider image_path w0)
      as [(e & w1 & Hr & _) | [(wc & a & Hcall) | (_ & Hr)]].
    + unfold query_llm. unfold bind at 1. rewrite Hg.
      unfold try_except. rewrite Hr. discriminate.
    + rewrite (query_llm_from_call _ _ _ _ _ _ _ _ _ _ _ Hg Hcall).
      destruct (api_call_quiet _ _ _ _ _ _ _ _ _ Hcall) as [Htc _].
      unfold handled, after_call, query_llm_except. run.
      destruct a as [e | [response | response | response]];
        [discriminate | | |].
      * destruct (openai_record E provider _ _ response wc)
          as [[r|e] w2] eqn:Hrec; [|discriminate].
        apply openai_record_ok in Hrec.
        destruct Hrec as (rec & Hc & Hpr & Hm & Hk & ->).
        intros H. injection H as -> <-. exists rec. eexists.
        split; [reflexivity|]. simpl. rewrite Htc, Ht. now repeat split.
      * destruct (anthropic_record E provider _ _ response wc)
          as [[r|e] w2] eqn:Hrec; [|discriminate].
        apply anthropic_record_ok in Hrec.
        destruct Hrec as (t0 & rec & -> & Hc & Hpr & Hm & Hk & ->).
        intros H. injection H as <- <-. exists rec. eexists.
        split; [reflexivity|]. simpl. rewrite Htc, Ht. now repeat split.
      * exfalso. inversion Hcall as [? ? ? ? Ha | ? ? ? ? ? Ha | Hgem ? Hw Ha].
        -- destruct (chat_completions_create E c kwargs); discriminate.
        -- destruct (messages_create E c _ 1000 messages); discriminate.
        -- subst provider. destruct Hp as [Hp|Hp]; discriminate.
    + unfold query_llm. unfold bind at 1. rewrite Hg.
      unfold try_except. rewrite Hr. discriminate.
  - unfold query_llm. unfold bind at 1. rewrite Hg. discriminate.
Qed.

Lemma returned_text_is_recorded_witness :
  exists rec w'',
    snd (query_llm happy_env "hi" None None "anthropic" None []) =
    EvTrack rec :: w'' /\
    tracked (snd (query_llm happy_env "hi" None None "anthropic" None [])) =
    rec :: tracked [] /\
    ar_content rec = Some "hello" /\ ar_provider rec = "anthropic" /\
    ar_model rec = default_model happy_env "anthropic" None /\
    track_request happy_env rec = None.
Proof.
  apply (returned_text_is_recorded happy_env "hi" None None "anthropic" None
           [] _ "hello").
  - now right.
  - reflexivity.
Defined.

(** X8: one query sends at most one request, and that request carries
    the prompt and the model in force; a record reaches the tracker only
    together with one request and one cost calculation, the one for the
    record's own counts and model. *)
Theorem one_request_per_query (E : Env) (prompt : string)
    (client : option Client) (model : OptStr) (provider : string)
    (image_path : OptStr) (w : World) :
  (network (snd (query_llm E prompt client model provider image_path w)) =
   network w \/
   exists e,
     network (snd (query_llm E prompt client model provider image_path w)) =
     e :: network w /\
     request_prompt e = Some prompt /\
     request_model e = Some (default_model E provider model)) /\
  (forall rec,
      tracked (snd (query_llm E prompt client model provider image_path w)) =
      rec :: tracked w ->
      (exists e,
          network (snd (query_llm E prompt client model provider image_path
                          w)) = e :: network w) /\
      exists f,
        costs (snd (query_llm E prompt client model provider image_path w)) =
        EvCost f (tu_prompt_tokens (ar_token_usage rec))
          (tu_completion_tokens (ar_token_usage rec)) (ar_model rec)
        :: costs w).
Proof.
  split.
  - destruct (query_llm_network E prompt client model provider image_path w)
      as [H | (c & w0 & a & e & w1 & _ & Hcall & H)]; [now left|].
    right. exists e. split; [exact H|].
    destruct (api_call_request _ _ _ _ _ _ _ _ _ Hcall)
      as (e' & w1' & Heq & Hp & Hm).
    now injection Heq as <- <-.
  - intros rec Hrec.
    destruct (quiet_get_client E client provider w) as (Ht & Hc & Hn).
    destruct (get_client E client provider w) as [[c|e] w0] eqn:Hg;
      simpl in Ht, Hc, Hn.
    + destruct (query_llm_try_cases E prompt c model provider image_path w0)
        as [(e & w1 & Hr & Ht1 & _) | [(wc & a & Hcall) | (_ & Hr)]].
      * exfalso. revert Hrec. unfold query_llm. unfold bind at 1.
        rewrite Hg. unfold try_except. rewrite Hr. simpl.
        rewrite Ht1, Ht. apply cons_neq_self.
      * destruct (api_call_quiet _ _ _ _ _ _ _ _ _ Hcall) as [Htc Hcc].
        destruct (api_call_network _ _ _ _ _ _ _ _ _ Hcall)
          as (e & w1 & Hwc & He & Hn1).
        split.
        -- exists e.
           rewrite (query_llm_network_after_call _ _ _ _ _ _ _ _ _ _ _ Hg
                      Hcall).
           subst wc. unfold network in *. simpl. rewrite He. congruence.
        -- revert Hrec.
           rewrite (query_llm_from_call _ _ _ _ _ _ _ _ _ _ _ Hg Hcall).
           destruct (handled_views
                       (after_call E provider
                          (default_model E provider model) a wc))
             as (Hht & Hhc & _).
           rewrite Hht, Hhc. unfold after_call.
           destruct a as [e0 | [response | response | response]].
           ++ simpl. rewrite Htc, Ht. intros H.
              exfalso. exact (cons_neq_self _ _ H).
           ++ destruct (openai_record_accounts E provider
                          (default_model E provider model) (time_start E)
                          response wc) as [Hsame | (r0 & f & Hnew & Hcost)].
              ** rewrite Hsame, Htc, Ht. intros H.
                 exfalso. exact (cons_neq_self _ _ H).
              ** rewrite Hnew, Hcost, Htc, Hcc, Ht, Hc. intros H.
                 injection H as <-. now exists f.
           ++ destruct (anthropic_record_accounts E provider
                          (default_model E provider model) (time_start E)
                          response wc) as [Hsame | (r0 & f & Hnew & Hcost)].
              ** rewrite Hsame, Htc, Ht. intros H.
                 exfalso. exact (cons_neq_self _ _ H).
              ** rewrite Hnew, Hcost, Htc, Hcc, Ht, Hc. intros H.
                 injection H as <-. now exists f.
           ++ intros H. exfalso. revert H.
              destruct (text response); simpl; rewrite Htc, Ht;
                apply cons_neq_self.
      * exfalso. revert Hrec. unfold query_llm. unfold bind at 1.
        rewrite Hg. unfold try_except. rewrite Hr. simpl. rewrite Ht.
        apply cons_neq_self.
    + exfalso. revert Hrec. unfold query_llm. unfold bind at 1.
      rewrite Hg. simpl. rewrite Ht. apply cons_neq_self.
Qed.

Lemma one_request_per_query_witness :
  (exists e,
      network (snd (query_llm happy_env "hi" None (Some "o1") "openai" None
                      [])) = e :: network []) /\
  exists f,
    costs (snd (query_llm happy_env "hi" None (Some "o1") "openai" None [])) =
    EvCost f 12 100 (Some "o1") :: costs [].
Proof.
  apply (proj2 (one_request_per_query happy_env "hi" None (Some "o1")
                  "openai" None [])
           {| ar_content := Some "hello";
              ar_token_usage := mkTokenUsage 12 100 112 (Some 40%Z);
              ar_cost := 1 # 100;
              ar_thinking_time := 12 - 10;
              ar_provider := "openai";
              ar_model := Some "o1" |}).
  reflexivity.
Defined.

(** X9: the request of an OpenAI-style provider names the model in
    force; when that model is exactly [o1] it has no [temperature] and
    asks for [response_format] text and [reasoning_effort] low; for every
    other model, [o1-mini] and [O1] included, it has [temperature] 0.7
    and neither of the two. *)
Theorem o1_request_parameters (E : Env) (prompt : string)
    (client : option Client) (model : OptStr) (provider : string)
    (image_path : OptStr) (w : World) (e : Event) :
  str_in provider openai_style = true ->
  network (snd (query_llm E prompt client model provider image_path w)) =
  e :: network w ->
  exists c kwargs,
    e = EvChatCreate c kwargs /\
    dict_get "model" kwargs =
    Some (KwModel (default_model E provider model)) /\
    (default_model E provider model = Some "o1" ->
     dict_get "temperature" kwargs = None /\
     dict_get "response_format" kwargs = Some (KwType "text") /\
     dict_get "reasoning_effort" kwargs = Some (KwStr "low")) /\
    (default_model E provider model <> Some "o1" ->
     dict_get "temperature" kwargs = Some (KwFloat (7 # 10)) /\
     dict_get "response_format" kwargs = None /\
     dict_get "reasoning_effort" kwargs = None).
Proof.
  intros Hs Hnet.
  destruct (query_llm_network E prompt client model provider image_path w)
    as [H | (c & w0 & a & e' & w1 & _ & Hcall & H)].
  - rewrite H in Hnet. exfalso. exact (cons_neq_self _ _ Hnet).
  - rewrite H in Hnet. injection Hnet as ->.
    inversion Hcall as [kwargs w2 _ Hk Hw | messages w2 Hs' | Hp];
      [| congruence | subst provider; discriminate].
    exists c, kwargs. split; [reflexivity|].
    destruct (openai_kwargs_shape _ _ _ _ _ _ _ _ Hk)
      as (Hmodel & _ & Ho1 & Hother).
    exact (conj Hmodel (conj Ho1 Hother)).
Qed.

Lemma o1_request_parameters_witness :
  exists c kwargs,
    EvChatCreate (OpenAI "sk-test" None)
      [("model", KwModel (Some "o1-mini"));
       ("messages", KwMessages [mkMessage "user" [TextPart "hi"]]);
       ("temperature", KwFloat (7 # 10))] = EvChatCreate c kwargs /\
    dict_get "model" kwargs =
    Some (KwModel (default_model happy_env "openai" (Some "o1-mini"))) /\
    (default_model happy_env "openai" (Some "o1-mini") = Some "o1" ->
     dict_get "temperature" kwargs = None /\
     dict_get "response_format" kwargs = Some (KwType "text") /\
     dict_get "reasoning_effort" kwargs = Some (KwStr "low")) /\
    (default_model happy_env "openai" (Some "o1-mini") <> Some "o1" ->
     dict_get "temperature" kwargs = Some (KwFloat (7 # 10)) /\
     dict_get "response_format" kwargs = None /\
     dict_get "reasoning_effort" kwargs = None).
Proof.
  apply (o1_request_parameters happy_env "hi" None (Some "o1-mini") "openai"
           None []); reflexivity.
Defined.

(** X10: an empty [image_path] is no image at all; and when the image of
    an openai or anthropic query cannot be read, the error is reported,
    [None] is returned, and no request has been sent. *)
Theorem unreadable_image_sends_nothing (E : Env) (prompt : string)
    (client : option Client) (model : OptStr) (provider : string)
    (w : World) :
  query_llm E prompt client model provider (Some "") w =
  query_llm E prompt client model provider None w /\
  (forall c w0 path e,
      provider = "openai" \/ provider = "anthropic" ->
      path <> "" ->
      get_client E client provider w = (Ok c, w0) ->
      read_b64 E path = inl e ->
      query_llm E prompt client model provider (Some path) w =
      (Ok None,
       EvStderr ("Error querying LLM: " ++ str e) :: EvReadImage path :: w0)).
Proof.
  split; [reflexivity|].
  intros c w0 path e Hp Hpath Hg Hread.
  apply String.eqb_neq in Hpath.
  unfold query_llm. unfold bind at 1. rewrite Hg.
  unfold try_except, query_llm_try.
  destruct Hp as [-> | ->].
  - change (str_in "openai" openai_style) with true. cbv iota.
    unfold bind at 1. unfold openai_kwargs, truthy. rewrite Hpath.
    change ("openai" =? "openai") with true. cbv iota. cbn [negb].
    unfold encode_image_file. run. now rewrite Hread.
  - change (str_in "anthropic" openai_style) with false.
    change ("anthropic" =? "anthropic") with true. cbv iota.
    unfold bind at 1. unfold anthropic_messages, truthy. rewrite Hpath.
    cbv iota. cbn [negb].
    unfold encode_image_file. run. now rewrite Hread.
Qed.

Lemma unreadable_image_sends_nothing_witness :
  query_llm
    {| getenv := all_keys;
       guess_type := fun _ => None;
       read_b64 := fun _ => inl (APIError "No such file");
       time_start := 10;
       time_end := 12;
       chat_completions_create := fun _ _ => inr chat_hello;
       messages_create := fun _ _ _ _ => inr claude_hello;
       GenerativeModel := fun _ _ => None;
       generate_content := fun _ _ _ => inr {| text := inr "hello" |};
       calculate_openai_cost := fun _ _ _ => inr (1 # 100);
       calculate_claude_cost := fun _ _ _ => inr (1 # 100);
       track_request := fun _ => None |}
    "hi" None None "anthropic" (Some "cat.jpg") [] =
  (Ok None,
   [EvStderr "Error querying LLM: No such file"; EvReadImage "cat.jpg"]).
Proof.
  apply (proj2 (unreadable_image_sends_nothing _ "hi" None None "anthropic"
                  [])
           (Anthropic "sk-test") [] "cat.jpg" (APIError "No such file"));
    [now right | discriminate | reflexivity | reflexivity].
Defined.

(** ** Building a client and encoding an image *)

Lemma credentials_cases (provider key : string) :
  In (provider, key) credentials ->
  (provider = "openai" /\ key = "OPENAI_API_KEY") \/
  (provider = "azure" /\ key = "AZURE_OPENAI_API_KEY") \/
  (provider = "deepseek" /\ key = "DEEPSEEK_API_KEY") \/
  (provider = "anthropic" /\ key = "ANTHROPIC_API_KEY") \/
  (provider = "gemini" /\ key = "GOOGLE_API_KEY").
Proof.
  simpl. intros [H|[H|[H|[H|[H|[]]]]]]; injection H as <- <-; tauto.
Qed.

(** X11: [encode_image_file] returns the encoded file together with a
    MIME type that is never empty: the guessed one, or [image/png] when
    the guess is [None] or empty; it fails exactly with the error of
    reading the file. *)
Theorem encode_image_file_result (E : Env) (path : string) (w : World) :
  (forall data mime w',
      encode_image_file E path w = (Ok (data, mime), w') ->
      w' = EvReadImage path :: w /\
      read_b64 E path = inr data /\
      mime <> "" /\
      (guess_type E path = Some mime \/
       truthy (guess_type E path) = false /\ mime = "image/png")) /\
  (forall e w',
      encode_image_file E path w = (Raised e, w') ->
      w' = EvReadImage path :: w /\ read_b64 E path = inl e).
Proof.
  unfold encode_image_file. run.
  destruct (read_b64 E path) as [e|data]; split;
    intros ? ? ? H || intros ? ? H; try discriminate H.
  - now injection H as <- <-.
  - injection H as <- <- <-. split; [reflexivity|]. split; [reflexivity|].
    destruct (guess_type E path) as [m|] eqn:Hgt; simpl.
    + destruct (m =? "") eqn:Hm; simpl.
      * split; [discriminate | right; now split].
      * apply String.eqb_neq in Hm. split; [exact Hm | now left].
    + split; [discriminate | right; now split].
Qed.

Lemma encode_image_file_result_witness :
  [EvReadImage "cat.jpg"] = [EvReadImage "cat.jpg"] /\
  read_b64 happy_env "cat.jpg" = inr "aGk=" /\
  "image/jpeg" <> "" /\
  (guess_type happy_env "cat.jpg" = Some "image/jpeg" \/
   truthy (guess_type happy_env "cat.jpg") = false /\
   "image/jpeg" = "image/png").
Proof.
  apply (proj1 (encode_image_file_result happy_env "cat.jpg" [])
           "aGk=" "image/jpeg" [EvReadImage "cat.jpg"]).
  reflexivity.
Defined.

(** X12: [create_llm_client] returns a client exactly when the provider
    is [local] or the provider's key variable holds a non-empty text; a
    key variable set to the empty text counts as missing and gives the
    same [ValueError]. *)
Theorem create_llm_client_succeeds_iff (E : Env) (provider : string)
    (w : World) :
  ((exists c w', create_llm_client E provider w = (Ok c, w')) <->
   provider = "local" \/
   exists key,
     In (provider, key) credentials /\ truthy (getenv E key) = true) /\
  (forall key,
      In (provider, key) credentials ->
      getenv E key = Some "" ->
      create_llm_client E provider w =
      (Raised (ValueError (key ++ " not found in environment variables")),
       w)).
Proof.
  split; [split|].
  - intros (c & w' & H). revert H. unfold create_llm_client.
    destruct (provider =? "openai") eqn:H1;
      [apply String.eqb_eq in H1; subst;
       destruct (truthy (getenv E "OPENAI_API_KEY")) eqn:Hk;
       [intros _; right; exists "OPENAI_API_KEY"; simpl; tauto
       |discriminate]|].
    destruct (provider =? "azure") eqn:H2;
      [apply String.eqb_eq in H2; subst;
       destruct (truthy (getenv E "AZURE_OPENAI_API_KEY")) eqn:Hk;
       [intros _; right; exists "AZURE_OPENAI_API_KEY"; simpl; tauto
       |discriminate]|].
    destruct (provider =? "deepseek") eqn:H3;
      [apply String.eqb_eq in H3; subst;
       destruct (truthy (getenv E "DEEPSEEK_API_KEY")) eqn:Hk;
       [intros _; right; exists "DEEPSEEK_API_KEY"; simpl; tauto
       |discriminate]|].
    destruct (provider =? "anthropic") eqn:H4;
      [apply String.eqb_eq in H4; subst;
       destruct (truthy (getenv E "ANTHROPIC_API_KEY")) eqn:Hk;
       [intros _; right; exists "ANTHROPIC_API_KEY"; simpl; tauto
       |discriminate]|].
    destruct (provider =? "gemini") eqn:H5;
      [apply String.eqb_eq in H5; subst;
       destruct (truthy (getenv E "GOOGLE_API_KEY")) eqn:Hk;
       [intros _; right; exists "GOOGLE_API_KEY"; simpl; tauto
       |discriminate]|].
    destruct (provider =? "local") eqn:H6; [|discriminate].
    apply String.eqb_eq in H6. now left.
  - intros [-> | (key & Hin & Hk)].
    + eexists. eexists. reflexivity.
    + apply credentials_cases in Hin.
      destruct Hin as [[-> ->]|[[-> ->]|[[-> ->]|[[-> ->]|[-> ->]]]]];
        unfold create_llm_client; simpl; rewrite Hk; simpl;
        eexists; eexists; reflexivity.
  - intros key Hin Hk. apply credentials_cases in Hin.
    destruct Hin as [[-> ->]|[[-> ->]|[[-> ->]|[[-> ->]|[-> ->]]]]];
      unfold create_llm_client; simpl; rewrite Hk; reflexivity.
Qed.

Lemma create_llm_client_succeeds_iff_witness :
  (exists c w', create_llm_client happy_env "azure" [] = (Ok c, w')) /\
  create_llm_client
    (const_env (fun _ => Some "") (inr chat_hello) (inr claude_hello)
       (inr {| text := inr "hello" |}) (inr (1 # 100)) None) "gemini" [] =
  (Raised (ValueError "GOOGLE_API_KEY not found in environment variables"),
   []).
Proof.
  split.
  - apply (proj2 (proj1 (create_llm_client_succeeds_iff happy_env "azure"
                           []))).
    right. exists "AZURE_OPENAI_API_KEY". split; [simpl; tauto | reflexivity].
  - apply (proj2 (create_llm_client_succeeds_iff _ "gemini" [])
             "GOOGLE_API_KEY"); [simpl; tauto | reflexivity].
Defined.

(** X13: a client depends on the key variable of its own provider only,
    and carries that variable's value: two environments that agree on it
    give the same result, and the key of the client returned, or the key
    [genai] is configured with, is the value read. *)
Theorem create_llm_client_uses_own_key (E : Env) (provider : string)
    (w : World) :
  (forall E',
      (forall key,
          In (provider, key) credentials -> getenv E' key = getenv E key) ->
      create_llm_client E' provider w = create_llm_client E provider w) /\
  (forall c w' key,
      create_llm_client E provider w = (Ok c, w') ->
      In (provider, key) credentials ->
      (client_key c = getenv E key /\ w' = w) \/
      (c = genai /\ provider = "gemini" /\
       exists k, getenv E key = Some k /\ w' = EvConfigure k :: w)).
Proof.
  split.
  - intros E' Hagree. unfold create_llm_client.
    destruct (provider =? "openai") eqn:H1;
      [apply String.eqb_eq in H1; subst;
       now rewrite (Hagree "OPENAI_API_KEY") by (simpl; tauto)|].
    destruct (provider =? "azure") eqn:H2;
      [apply String.eqb_eq in H2; subst;
       now rewrite (Hagree "AZURE_OPENAI_API_KEY") by (simpl; tauto)|].
    destruct (provider =? "deepseek") eqn:H3;
      [apply String.eqb_eq in H3; subst;
       now rewrite (Hagree "DEEPSEEK_API_KEY") by (simpl; tauto)|].
    destruct (provider =? "anthropic") eqn:H4;
      [apply String.eqb_eq in H4; subst;
       now rewrite (Hagree "ANTHROPIC_API_KEY") by (simpl; tauto)|].
    destruct (provider =? "gemini") eqn:H5;
      [apply String.eqb_eq in H5; subst;
       now rewrite (Hagree "GOOGLE_API_KEY") by (simpl; tauto)|].
    reflexivity.
  - intros c w' key Hc Hin. apply credentials_cases in Hin.
    destruct Hin as [[-> ->]|[[-> ->]|[[-> ->]|[[-> ->]|[-> ->]]]]];
      revert Hc; unfold create_llm_client; simpl;
      match goal with
      | |- context [getenv E ?k] => destruct (getenv E k) as [v|]
      end; simpl; try discriminate;
      (destruct (v =? ""); simpl; [discriminate|]); run;
      intros H; injection H as <- <-;
      try (left; now split).
    right. repeat split. now exists v.
Qed.

Lemma create_llm_client_uses_own_key_witness :
  create_llm_client
    (const_env (fun k => if k =? "ANTHROPIC_API_KEY" then Some "sk-test"
                         else None)
       (inr chat_hello) (inr claude_hello) (inr {| text := inr "hello" |})
       (inr (1 # 100)) None) "anthropic" [] =
  create_llm_client happy_env "anthropic" [] /\
  (client_key (Anthropic "sk-test") = getenv happy_env "ANTHROPIC_API_KEY" /\
   @nil Event = [] \/
   Anthropic "sk-test" = genai /\ "anthropic" = "gemini" /\
   exists k,
     getenv happy_env "ANTHROPIC_API_KEY" = Some k /\
     [] = [EvConfigure k]).
Proof.
  split.
  - apply (proj1 (create_llm_client_uses_own_key happy_env "anthropic" [])).
    intros key Hin. apply credentials_cases in Hin.
    destruct Hin as [[H _]|[[H _]|[[H _]|[[_ ->]|[H _]]]]];
      try discriminate H. reflexivity.
  - apply (proj2 (create_llm_client_uses_own_key happy_env "anthropic" [])
             (Anthropic "sk-test") [] "ANTHROPIC_API_KEY");
      [reflexivity | simpl; tauto].
Defined.

(** ** The command line, continued *)

Lemma create_llm_client_falsy_key (E : Env) (provider key : string)
    (w : World) :
  In (provider, key) credentials ->
  truthy (getenv E key) = false ->
  create_llm_client E provider w =
  (Raised (ValueError (key ++ " not found in environment variables")), w).
Proof.
  intros Hin Hk. apply credentials_cases in Hin.
  destruct Hin as [[-> ->]|[[-> ->]|[[-> ->]|[[-> ->]|[-> ->]]]]];
    unfold create_llm_client; simpl; rewrite Hk; reflexivity.
Qed.

Lemma create_llm_client_truthy_key (E : Env) (provider key : string)
    (w : World) :
  provider = "local" \/
  In (provider, key) credentials /\ truthy (getenv E key) = true ->
  exists c w', create_llm_client E provider w = (Ok c, w').
Proof.
  intros [-> | [Hin Hk]]; [eexists; eexists; reflexivity|].
  apply credentials_cases in Hin.
  destruct Hin as [[-> ->]|[[-> ->]|[[-> ->]|[[-> ->]|[-> ->]]]]];
    unfold create_llm_client; simpl; rewrite Hk; simpl;
    eexists; eexists; reflexivity.
Qed.

Lemma provider_choices_cases (provider : string) :
  str_in provider provider_choices = true ->
  provider = "local" \/ exists key, In (provider, key) credentials.
Proof.
  unfold str_in, provider_choices. simpl. rewrite !orb_true_iff.
  intros [H|[H|[H|[H|[H|[H|H]]]]]]; try discriminate H;
    apply String.eqb_eq in H; subst provider;
    [right; exists "OPENAI_API_KEY" | right; exists "ANTHROPIC_API_KEY"
    | right; exists "GOOGLE_API_KEY" | left; reflexivity
    | right; exists "DEEPSEEK_API_KEY" | right; exists "AZURE_OPENAI_API_KEY"];
    simpl; tauto.
Qed.

(** X14: how [main] ends.  Without [--prompt], or with a provider outside
    the choices, argparse ends the process with status 2 before anything
    else happens.  With the arguments parsed, a key variable of the chosen
    provider that is missing or empty lets the [ValueError] of
    [create_llm_client] leave [main] uncaught, with nothing printed and
    nothing sent; otherwise [main] returns normally.  These cases are
    exhaustive, so the "Unsupported provider" error never comes out of
    [main]. *)
Theorem main_exit_status (E : Env) (argv : Argv) (w : World) :
  (opt_prompt argv = None \/
   str_in (chosen_provider argv) provider_choices = false ->
   main E argv w = (SystemExit 2, w)) /\
  (forall args key,
      parse_args argv = inr args ->
      In (arg_provider args, key) credentials ->
      truthy (getenv E key) = false ->
      main E argv w =
      (Uncaught (ValueError (key ++ " not found in environment variables")),
       w)) /\
  (forall args,
      parse_args argv = inr args ->
      arg_provider args = "local" \/
      (exists key,
          In (arg_provider args, key) credentials /\
          truthy (getenv E key) = true) ->
      exists w', main E argv w = (Returned, w')) /\
  ((opt_prompt argv = None \/
    str_in (chosen_provider argv) provider_choices = false) \/
   exists args,
     parse_args argv = inr args /\
     (arg_provider args = "local" \/
      exists key,
        In (arg_provider args, key) credentials /\
        (truthy (getenv E key) = true \/ truthy (getenv E key) = false))).
Proof.
  split; [|split; [|split]].
  - unfold main, parse_args. intros [-> | H]; [reflexivity|].
    rewrite H. now destruct (opt_prompt argv).
  - intros args key Hp Hin Hk. unfold main. rewrite Hp.
    unfold main_parsed. unfold bind at 1.
    now rewrite (create_llm_client_falsy_key E _ key w Hin Hk).
  - intros args Hp Hok. unfold main. rewrite Hp.
    assert (Hc : exists c w0,
               create_llm_client E (arg_provider args) w = (Ok c, w0)).
    { destruct Hok as [Hl | (key & Hin & Hk)].
      - apply (create_llm_client_truthy_key E _ "" w). now left.
      - apply (create_llm_client_truthy_key E _ key w). now right. }
    destruct Hc as (c & w0 & Hc).
    unfold main_parsed. unfold bind at 1. rewrite Hc. unfold bind.
    destruct (query_llm_returns E (arg_prompt args) c (cli_model E args)
                (arg_provider args) (arg_image args) w0) as (r & w1 & Hq).
    rewrite Hq. destruct (truthy r); eexists; reflexivity.
  - unfold parse_args.
    destruct (opt_prompt argv) as [prompt|]; [|now left; left].
    destruct (str_in (chosen_provider argv) provider_choices) eqn:Hs;
      [|now left; right].
    right. eexists. split; [reflexivity|]. simpl.
    destruct (provider_choices_cases _ Hs) as [Hl | (key & Hin)];
      [now left|].
    right. exists key. split; [exact Hin|].
    destruct (truthy (getenv E key)); tauto.
Qed.

Lemma main_exit_status_witness :
  main happy_env (mkArgv (Some "hi") (Some "mistral") None None) [] =
  (SystemExit 2, []) /\
  main (const_env no_keys (inr chat_hello) (inr claude_hello)
          (inr {| text := inr "hello" |}) (inr (1 # 100)) None)
    (mkArgv (Some "hi") (Some "anthropic") None None) [] =
  (Uncaught
     (ValueError "ANTHROPIC_API_KEY not found in environment variables"),
   []) /\
  exists w',
    main happy_env (mkArgv (Some "hi") (Some "local") None None) [] =
    (Returned, w').
Proof.
  split; [|split].
  - apply (proj1 (main_exit_status happy_env
                    (mkArgv (Some "hi") (Some "mistral") None None) [])).
    right. reflexivity.
  - apply (proj1 (proj2 (main_exit_status _
                           (mkArgv (Some "hi") (Some "anthropic") None None)
                           []))
             (mkArgs "hi" "anthropic" None None) "ANTHROPIC_API_KEY");
      [reflexivity | simpl; tauto | reflexivity].
  - apply (proj1 (proj2 (proj2 (main_exit_status happy_env
                                  (mkArgv (Some "hi") (Some "local") None
                                     None) [])))
             (mkArgs "hi" "local" None None)); [reflexivity | now left].
Defined.

(** X15: the model [main] ends up querying.  A non-empty [--model] is
    used as given.  Without one, openai, deepseek, anthropic and azure
    get the same model [query_llm] would choose by itself and [local]
    falls back on the default of [query_llm]; gemini gets
    [gemini-2.0-flash-exp], not the [gemini-pro] of [query_llm]; and an
    empty [--model] with [local] is sent as the empty name. *)
Theorem cli_model_defaults (E : Env) (args : Args) :
  (truthy (arg_model args) = true ->
   default_model E (arg_provider args) (cli_model E args) = arg_model args) /\
  (truthy (arg_model args) = false ->
   str_in (arg_provider args) ["openai"; "deepseek"; "anthropic"; "azure"] =
   true ->
   default_model E (arg_provider args) (cli_model E args) =
   default_model E (arg_provider args) None) /\
  (arg_model args = None -> arg_provider args = "local" ->
   default_model E (arg_provider args) (cli_model E args) =
   Some "Qwen/Qwen2.5-32B-Instruct-AWQ") /\
  (truthy (arg_model args) = false -> arg_provider args = "gemini" ->
   default_model E (arg_provider args) (cli_model E args) =
   Some "gemini-2.0-flash-exp" /\
   default_model E (arg_provider args) None = Some "gemini-pro") /\
  (arg_model args = Some "" -> arg_provider args = "local" ->
   default_model E (arg_provider args) (cli_model E args) = Some "").
Proof.
  destruct args as [prompt provider model image]. simpl.
  unfold cli_model. simpl. split; [|split; [|split; [|split]]].
  - intros H. rewrite H. simpl. destruct model; [reflexivity|discriminate].
  - intros H Hp. rewrite H. simpl. revert Hp. unfold str_in. simpl.
    destruct (provider =? "openai") eqn:H1;
      [apply String.eqb_eq in H1; now subst|].
    destruct (provider =? "deepseek") eqn:H2;
      [apply String.eqb_eq in H2; now subst|].
    destruct (provider =? "anthropic") eqn:H3;
      [apply String.eqb_eq in H3; now subst|].
    destruct (provider =? "azure") eqn:H4;
      [apply String.eqb_eq in H4; now subst|].
    discriminate.
  - intros -> ->. reflexivity.
  - intros H ->. rewrite H. split; reflexivity.
  - intros -> ->. reflexivity.
Qed.

Lemma cli_model_defaults_witness :
  default_model happy_env "gemini"
    (cli_model happy_env (mkArgs "hi" "gemini" None None)) =
  Some "gemini-2.0-flash-exp" /\
  default_model happy_env "gemini" None = Some "gemini-pro".
Proof.
  apply (proj1 (proj2 (proj2 (proj2
           (cli_model_defaults happy_env
              (mkArgs "hi" "gemini" None None)))))); reflexivity.
Defined.

(** ** Reading the environment files, continued *)

Ltac blame_file F f :=
  exists f; split; [simpl; tauto|]; split; [assumption|];
  solve [left; assumption | right; split; assumption].

Ltac excuse_file H f :=
  destruct (H f) as [? [? ?]]; [simpl; tauto | assumption | congruence].

(** X16: [load_environment] returns exactly when every one of the three
    files that exists can be loaded by [load_dotenv] and then opened; when
    it raises, the exception is the one [load_dotenv] or [open] raised for
    a file that exists, and nothing catches it. *)
Theorem load_environment_fails_only_on_files (F : Files)
    (log : list LoadEvent) :
  (fst (load_environment F log) = Ok tt <->
   forall f,
     In f env_files -> exists_file F f = true ->
     load_dotenv F f = None /\ exists lines, open_lines F f = inr lines) /\
  (forall e,
      fst (load_environment F log) = Raised e ->
      exists f,
        In f env_files /\ exists_file F f = true /\
        (load_dotenv F f = Some e \/
         load_dotenv F f = None /\ open_lines F f = inl e)).
Proof.
  unfold load_environment, env_files, load_each, load_one.
  destruct (exists_file F ".env.local") eqn:E1;
    [destruct (load_dotenv F ".env.local") as [x1|] eqn:L1;
     [|destruct (open_lines F ".env.local") as [y1|l1] eqn:O1]|].
  1, 2: split;
    [split; [discriminate | intros H; exfalso; excuse_file H ".env.local"]
    |intros e He; injection He as <-; blame_file F ".env.local"].
  all: destruct (exists_file F ".env") eqn:E2;
    [destruct (load_dotenv F ".env") as [x2|] eqn:L2;
     [|destruct (open_lines F ".env") as [y2|l2] eqn:O2]|].
  1, 2, 5, 6: split;
    [split; [discriminate | intros H; exfalso; excuse_file H ".env"]
    |intros e He; injection He as <-; blame_file F ".env"].
  all: destruct (exists_file F ".env.example") eqn:E3;
    [destruct (load_dotenv F ".env.example") as [x3|] eqn:L3;
     [|destruct (open_lines F ".env.example") as [y3|l3] eqn:O3]|].
  all: try (split;
    [split; [discriminate | intros H; exfalso; excuse_file H ".env.example"]
    |intros e He; injection He as <-; blame_file F ".env.example"]).
  all: cbn [negb fst]; split; [|intros e He; discriminate He].
  all: split; [|reflexivity].
  all: intros _ f [<-|[<-|[<-|[]]]] Hf; try congruence;
    (split; [assumption | eexists; eassumption]).
Qed.

Lemma load_environment_fails_only_on_files_witness :
  fst (load_environment sample_files []) = Ok tt.
Proof.
  apply (proj2 (proj1 (load_environment_fails_only_on_files sample_files
                         []))).
  intros f [<-|[<-|[<-|[]]]] Hf; try discriminate Hf.
  split; [reflexivity | eexists; reflexivity].
Defined.

(** ** Usage records, continued *)

(** A chat completion whose reasoning tokens read as [reasoning]: the
    usage record is built, and, when the cost is calculated and there is
    a first choice, it is the usage of the one record handed to the
    tracker. *)
Lemma query_llm_tracks_usage (E : Env) (prompt : string)
    (client : option Client) (model : OptStr) (provider : string)
    (image_path : OptStr) (w w0 w1 : World) (c : Client) (kwargs : Dict)
    (response : ChatCompletion) (m : string) (reasoning : option Z) :
  str_in provider openai_style = true ->
  default_model E provider model = Some m ->
  get_client E client provider w = (Ok c, w0) ->
  openai_kwargs E prompt (Some m) provider image_path w0 = (Ok kwargs, w1) ->
  chat_completions_create E c kwargs = inr response ->
  read_reasoning m (usage response) = inr reasoning ->
  openai_token_usage (Some m) response (EvChatCreate c kwargs :: w1) =
  (Ok (usage_of response reasoning), EvChatCreate c kwargs :: w1) /\
  (forall cost text rest,
      calculate_openai_cost E (prompt_tokens (usage response))
        (completion_tokens (usage response)) (Some m) = inr cost ->
      choices response = text :: rest ->
      map ar_token_usage
        (tracked (snd (query_llm E prompt client model provider image_path
                         w))) =
      usage_of response reasoning :: map ar_token_usage (tracked w)).
Proof.
  intros Hs Hm Hg Hk Hresp Hrr. split.
  - unfold openai_token_usage. run. now rewrite Hrr.
  - intros cost text rest Hcost Hch.
    assert (Hcall : api_call E c prompt (default_model E provider model)
                      provider image_path w0 (EvChatCreate c kwargs :: w1)
                      (inr (ChatAnswer response))).
    { rewrite Hm.
      pose proof (CallChat E c prompt (Some m) provider image_path w0
                    kwargs w1 Hs Hk) as H.
      now rewrite Hresp in H. }
    destruct (api_call_quiet _ _ _ _ _ _ _ _ _ Hcall) as [Htc _].
    destruct (quiet_get_client E client provider w) as (Ht & _).
    rewrite Hg in Ht. simpl in Ht, Htc.
    rewrite (query_llm_from_call _ _ _ _ _ _ _ _ _ _ _ Hg Hcall).
    destruct (handled_views
                (after_call E provider (default_model E provider model)
                   (inr (ChatAnswer response)) (EvChatCreate c kwargs :: w1)))
      as (Hht & _).
    rewrite Hht, Hm. unfold after_call, openai_record, openai_token_usage.
    run. rewrite Hrr. cbn [tu_prompt_tokens tu_completion_tokens].
    rewrite Hcost, Hch. cbv iota beta.
    destruct (track_request E _); simpl; rewrite Htc, Ht; reflexivity.
Qed.

(** With a usage object that has no [reasoning_tokens], a model whose
    name starts with [o] gets no usage record at all. *)
Example run_o1_without_attribute :
  query_llm plain_env "hi" None (Some "o1") "openai" None [] =
  (Ok None,
   [EvStderr
      "Error querying LLM: 'CompletionUsage' object has no attribute 'reasoning_tokens'";
    EvChatCreate (OpenAI "sk-test" None)
      [("model", KwModel (Some "o1"));
       ("messages", KwMessages [mkMessage "user" [TextPart "hi"]]);
       ("response_format", KwType "text");
       ("reasoning_effort", KwStr "low")]]) /\
  map ar_token_usage
    (tracked (snd (query_llm plain_env "hi" None (Some "gpt-4o") "openai"
                     None []))) =
  [mkTokenUsage 12 100 112 None].
Proof. split; reflexivity. Qed.

(** C3: on the OpenAI-style branch, for the answer to the request that
    was sent.  When the lower-cased model name starts with [o], the usage
    record carries what reading [usage.reasoning_tokens] gives, as it is
    built and as it reaches the tracker; for every other model the
    attribute is not read and the record carries [None].  When the name
    starts with [o] and the usage object has no such attribute, reading
    it raises: no usage record is built and [query_llm] reports the error
    and returns [None]. *)
Theorem reasoning_tokens_iff_o_model (E : Env) (prompt : string)
    (client : option Client) (model : OptStr) (provider : string)
    (image_path : OptStr) (w w0 w1 : World) (c : Client) (kwargs : Dict)
    (response : ChatCompletion) (m : string) :
  str_in provider openai_style = true ->
  default_model E provider model = Some m ->
  get_client E client provider w = (Ok c, w0) ->
  openai_kwargs E prompt (Some m) provider image_path w0 = (Ok kwargs, w1) ->
  chat_completions_create E c kwargs = inr response ->
  (startswith (lower m) "o" = true ->
   forall reported,
     reasoning_tokens (usage response) = inr reported ->
     openai_token_usage (Some m) response (EvChatCreate c kwargs :: w1) =
     (Ok (usage_of response reported), EvChatCreate c kwargs :: w1) /\
     (forall cost text rest,
         calculate_openai_cost E (prompt_tokens (usage response))
           (completion_tokens (usage response)) (Some m) = inr cost ->
         choices response = text :: rest ->
         map ar_token_usage
           (tracked (snd (query_llm E prompt client model provider
                            image_path w))) =
         usage_of response reported :: map ar_token_usage (tracked w))) /\
  (startswith (lower m) "o" = false ->
   openai_token_usage (Some m) response (EvChatCreate c kwargs :: w1) =
   (Ok (usage_of response None), EvChatCreate c kwargs :: w1) /\
   (forall cost text rest,
       calculate_openai_cost E (prompt_tokens (usage response))
         (completion_tokens (usage response)) (Some m) = inr cost ->
       choices response = text :: rest ->
       map ar_token_usage
         (tracked (snd (query_llm E prompt client model provider image_path
                          w))) =
       usage_of response None :: map ar_token_usage (tracked w))) /\
  (startswith (lower m) "o" = true ->
   forall e,
     reasoning_tokens (usage response) = inl e ->
     openai_token_usage (Some m) response (EvChatCreate c kwargs :: w1) =
     (Raised e, EvChatCreate c kwargs :: w1) /\
     query_llm E prompt client model provider image_path w =
     (Ok None,
      EvStderr ("Error querying LLM: " ++ str e)
      :: EvChatCreate c kwargs :: w1)).
Proof.
  intros Hs Hm Hg Hk Hresp. split; [|split].
  - intros Ho reported Hrep.
    apply (query_llm_tracks_usage E prompt client model provider image_path
             w w0 w1 c kwargs response m reported Hs Hm Hg Hk Hresp).
    unfold read_reasoning. now rewrite Ho.
  - intros Ho.
    apply (query_llm_tracks_usage E prompt client model provider image_path
             w w0 w1 c kwargs response m None Hs Hm Hg Hk Hresp).
    unfold read_reasoning. now rewrite Ho.
  - intros Ho e He.
    assert (Hrr : read_reasoning m (usage response) = inl e).
    { unfold read_reasoning. now rewrite Ho. }
    split.
    + unfold openai_token_usage. run. now rewrite Hrr.
    + assert (Hcall : api_call E c prompt (default_model E provider model)
                        provider image_path w0 (EvChatCreate c kwargs :: w1)
                        (inr (ChatAnswer response))).
      { rewrite Hm.
        pose proof (CallChat E c prompt (Some m) provider image_path w0
                      kwargs w1 Hs Hk) as H.
        now rewrite Hresp in H. }
      rewrite (query_llm_from_call _ _ _ _ _ _ _ _ _ _ _ Hg Hcall).
      rewrite Hm. unfold handled, after_call, openai_record,
        openai_token_usage, query_llm_except.
      run. now rewrite Hrr.
Qed.

Lemma reasoning_tokens_iff_o_model_witness :
  (openai_token_usage (Some "o1") chat_hello
     [EvChatCreate (OpenAI "sk-test" None)
        [("model", KwModel (Some "o1"));
         ("messages", KwMessages [mkMessage "user" [TextPart "hi"]]);
         ("response_format", KwType "text");
         ("reasoning_effort", KwStr "low")]] =
   (Ok (usage_of chat_hello (Some 40%Z)),
    [EvChatCreate (OpenAI "sk-test" None)
       [("model", KwModel (Some "o1"));
        ("messages", KwMessages [mkMessage "user" [TextPart "hi"]]);
        ("response_format", KwType "text");
        ("reasoning_effort", KwStr "low")]]) /\
   (forall cost text rest,
       calculate_openai_cost happy_env (prompt_tokens (usage chat_hello))
         (completion_tokens (usage chat_hello)) (Some "o1") = inr cost ->
       choices chat_hello = text :: rest ->
       map ar_token_usage
         (tracked (snd (query_llm happy_env "hi" None (Some "o1") "openai"
                          None []))) =
       usage_of chat_hello (Some 40%Z) :: map ar_token_usage (tracked [])))
  /\
  (openai_token_usage (Some "gpt-4o") chat_hello
     [EvChatCreate (OpenAI "sk-test" None)
        [("model", KwModel (Some "gpt-4o"));
         ("messages", KwMessages [mkMessage "user" [TextPart "hi"]]);
         ("temperature", KwFloat (7 # 10))]] =
   (Ok (usage_of chat_hello None),
    [EvChatCreate (OpenAI "sk-test" None)
       [("model", KwModel (Some "gpt-4o"));
        ("messages", KwMessages [mkMessage "user" [TextPart "hi"]]);
        ("temperature", KwFloat (7 # 10))]]) /\
   (forall cost text rest,
       calculate_openai_cost happy_env (prompt_tokens (usage chat_hello))
         (completion_tokens (usage chat_hello)) (Some "gpt-4o") = inr cost ->
       choices chat_hello = text :: rest ->
       map ar_token_usage
         (tracked (snd (query_llm happy_env "hi" None None "openai" None
                          []))) =
       usage_of chat_hello None :: map ar_token_usage (tracked [])))
  /\
  query_llm plain_env "hi" None (Some "o1") "openai" None [] =
  (Ok None,
   [EvStderr ("Error querying LLM: " ++ str no_attribute);
    EvChatCreate (OpenAI "sk-test" None)
      [("model", KwModel (Some "o1"));
       ("messages", KwMessages [mkMessage "user" [TextPart "hi"]]);
       ("response_format", KwType "text");
       ("reasoning_effort", KwStr "low")]]).
Proof.
  split; [|split].
  - apply (proj1 (reasoning_tokens_iff_o_model happy_env "hi" None
                    (Some "o1") "openai" None [] [] [] (OpenAI "sk-test" None)
                    _ chat_hello "o1" eq_refl eq_refl eq_refl eq_refl
                    eq_refl) eq_refl (Some 40%Z) eq_refl).
  - apply (proj1 (proj2 (reasoning_tokens_iff_o_model happy_env "hi" None
                           None "openai" None [] [] []
                           (OpenAI "sk-test" None) _ chat_hello "gpt-4o"
                           eq_refl eq_refl eq_refl eq_refl eq_refl))
             eq_refl).
  - apply (proj2 (proj2 (reasoning_tokens_iff_o_model plain_env "hi" None
                           (Some "o1") "openai" None [] [] []
                           (OpenAI "sk-test" None) _ chat_plain "o1"
                           eq_refl eq_refl eq_refl eq_refl eq_refl))
             eq_refl no_attribute eq_refl).
Defined.
